(** * PDF -> PNG converter (app/lib/pdf2img.ts): a shallow embedding

    The module under study converts the first page of a PDF file to a PNG
    image by orchestrating a third-party engine (pdf.js) and the host's
    canvas.  The embedding keeps the structure of the source:

    - [JsString]: the two uses of the regular expression [/\.pdf$/i]
      ([test] and [replace]) as a left-to-right search, the way a regular
      expression engine runs it;
    - [Js], [JsM]: thrown values, and a state-and-exception monad;
    - [Pdf2Img]: [getWorkerUrl], [loadPdfJs] and [convertPdfToImage] over
      the module's two globals ([pdfjsLib], [loadPromise]) and a log of the
      external calls the code makes, run to completion for one call;
    - [Loader]: [loadPdfJs] again as a transition system on the same globals,
      for callers that interleave at the suspension points;
    - [Props], [Samples]: the vocabulary of the properties, and concrete
      hosts to run the code in.

    The properties follow, in [JsStringFacts], [Pdf2ImgFacts] and
    [LoaderFacts]; [ConversionFacts] and [SchedulingFacts] then describe
    every run of the conversion and of the loader, over the vocabulary of
    [Traces] and [Scheduling]. *)

From Stdlib Require Import List String Ascii Bool Arith ZArith QArith Qround
  Lia.
Import ListNotations.

Local Open Scope string_scope.

(* ------------------------------------------------------------------ *)
(** ** Strings and the regular expression [/\.pdf$/i]                  *)
(* ------------------------------------------------------------------ *)

Module JsString.

(** Case folding of the [i] flag (Canonicalize, non-unicode mode): a
    character is compared through its upper-case form; only [a]..[z] have
    one that differs. *)
Definition canonicalize (c : ascii) : ascii :=
  let n := nat_of_ascii c in
  if (97 <=? n)%nat && (n <=? 122)%nat then ascii_of_nat (n - 32) else c.

Definition char_match_ci (p c : ascii) : bool :=
  Ascii.eqb (canonicalize p) (canonicalize c).

(** The literal part of the pattern: an escaped dot, then [pdf]. *)
Definition pdf_pattern : list ascii := ["."; "p"; "d"; "f"]%char.

(** One attempt at a fixed start position: the literal characters, then the
    assertion [$] (end of input, no [m] flag). *)
Fixpoint match_here (pat : list ascii) (s : string) : bool :=
  match pat, s with
  | [], EmptyString => true
  | [], String _ _ => false
  | _ :: _, EmptyString => false
  | p :: pat', String c s' => char_match_ci p c && match_here pat' s'
  end.

(** The search of [RegExp.prototype.exec] with [lastIndex = 0]: start
    positions are tried from the left, the first one that matches wins. *)
Fixpoint regex_search (pat : list ascii) (s : string) : option nat :=
  if match_here pat s then Some 0%nat
  else match s with
       | EmptyString => None
       | String _ s' => option_map S (regex_search pat s')
       end.

Fixpoint take (n : nat) (s : string) : string :=
  match n, s with
  | O, _ => EmptyString
  | S _, EmptyString => EmptyString
  | S n', String c s' => String c (take n' s')
  end.

Fixpoint drop (n : nat) (s : string) : string :=
  match n, s with
  | O, _ => s
  | S _, EmptyString => EmptyString
  | S n', String _ s' => drop n' s'
  end.

(** [/\.pdf$/i.test(s)] *)
Definition test_pdf (s : string) : bool :=
  match regex_search pdf_pattern s with Some _ => true | None => false end.

(** [s.replace(/\.pdf$/i, r)]: without the [g] flag the first match (if any)
    is replaced, the text before and after it is kept. *)
Definition replace_pdf (s r : string) : string :=
  match regex_search pdf_pattern s with
  | Some i => take i s ++ r ++ drop (i + List.length pdf_pattern) s
  | None => s
  end.

(** ASCII lower-casing, used to say "ends in .pdf, whatever the case"
    without reference to the search. *)
Definition lower (c : ascii) : ascii :=
  let n := nat_of_ascii c in
  if (65 <=? n)%nat && (n <=? 90)%nat then ascii_of_nat (n + 32) else c.

Fixpoint lowercase (s : string) : string :=
  match s with
  | EmptyString => EmptyString
  | String c s' => String (lower c) (lowercase s')
  end.

End JsString.

(* ------------------------------------------------------------------ *)
(** ** Thrown values, outcomes of external calls                        *)
(* ------------------------------------------------------------------ *)

Module Js.

(** What a [catch (err: any)] clause can receive: an [Error]-like object
    with its [name] and [message], a string primitive, [null] or
    [undefined]. *)
Inductive Thrown : Type :=
| ThrownError (name message : string)
| ThrownString (s : string)
| ThrownNull
| ThrownUndefined.

(** [err?.message]: [None] stands for [undefined]. *)
Definition message_of (err : Thrown) : option string :=
  match err with
  | ThrownError _ m => Some m
  | ThrownString _ | ThrownNull | ThrownUndefined => None
  end.

(** [String(err)]; for an [Error] this is [Error.prototype.toString]. *)
Definition String_of (err : Thrown) : string :=
  match err with
  | ThrownError n m =>
      if String.eqb n "" then m
      else if String.eqb m "" then n
      else n ++ ": " ++ m
  | ThrownString s => s
  | ThrownNull => "null"
  | ThrownUndefined => "undefined"
  end.

(** [err?.message || String(err)]: the empty string is falsy. *)
Definition message_or_string (err : Thrown) : string :=
  match message_of err with
  | Some m => if String.eqb m "" then String_of err else m
  | None => String_of err
  end.

(** The way an awaited external operation settles. *)
Inductive outcome (A : Type) : Type :=
| Ok (a : A)
| Throws (e : Thrown).
Arguments Ok {A} a.
Arguments Throws {A} e.

End Js.

(* ------------------------------------------------------------------ *)
(** ** A state-and-exception monad                                      *)
(* ------------------------------------------------------------------ *)

Module JsM.
Import Js.

Inductive Res (A : Type) : Type :=
| Val (a : A)
| Exn (e : Thrown).
Arguments Val {A} a.
Arguments Exn {A} e.

Section Monad.
Variable S : Type.

(** A computation reads and writes the store; a [throw] keeps the writes
    made before it, as in JavaScript. *)
Definition M (A : Type) : Type := S -> Res A * S.

Definition ret {A} (a : A) : M A := fun st => (Val a, st).

Definition throw {A} (e : Thrown) : M A := fun st => (Exn e, st).

Definition bind {A B} (c : M A) (k : A -> M B) : M B :=
  fun st =>
    match c st with
    | (Val a, st') => k a st'
    | (Exn e, st') => (Exn e, st')
    end.

(** [try { c } catch (err) { handler err }] *)
Definition try_catch {A} (c : M A) (handler : Thrown -> M A) : M A :=
  fun st =>
    match c st with
    | (Val a, st') => (Val a, st')
    | (Exn e, st') => handler e st'
    end.

Definition get : M S := fun st => (Val st, st).
Definition modify (f : S -> S) : M unit := fun st => (Val tt, f st).

(** [await p] for a promise of the environment that settles as [o]. *)
Definition settle {A} (o : outcome A) : M A :=
  fun st => (match o with Ok a => Val a | Throws e => Exn e end, st).
End Monad.

Arguments ret {S A} a.
Arguments throw {S A} e.
Arguments bind {S A B} c k.
Arguments try_catch {S A} c handler.
Arguments get {S}.
Arguments modify {S} f.
Arguments settle {S A} o.

Declare Scope jsm_scope.
Delimit Scope jsm_scope with jsm.
Notation "x <- c ;; k" := (bind c (fun x => k))
  (at level 61, c at next level, right associativity) : jsm_scope.
Notation "c ;;; k" := (bind c (fun _ => k))
  (at level 61, right associativity) : jsm_scope.

End JsM.

(* ------------------------------------------------------------------ *)
(** ** The data of pdf2img.ts                                           *)
(* ------------------------------------------------------------------ *)

Module Pdf2Img.
Import Js JsM JsString.
Local Open Scope jsm_scope.

(** A width and a height.  The engine's viewport carries JavaScript
    numbers, taken as rationals; the [width] and [height] of a canvas are
    [unsigned long] attributes, integers. *)
Record Size (A : Type) : Type := { width : A; height : A }.
Arguments Build_Size {A} width height.
Arguments width {A} s.
Arguments height {A} s.
Definition Viewport : Type := Size Q.
Definition Canvas : Type := Size Z.

(** Assigning a number to an [unsigned long] attribute converts it first:
    the integer part (towards zero), modulo 2^32. *)
Definition to_unsigned_long (x : Q) : Z :=
  Z.modulo (Z.quot (Qnum x) (Zpos (Qden x))) (2 ^ 32).

(** The setter of a reflected [unsigned long] attribute keeps a value up to
    2^31 - 1 and replaces a larger one by the attribute's default. *)
Definition reflect_unsigned_long (default : Z) (x : Q) : Z :=
  let n := to_unsigned_long x in
  if (n <=? 2147483647)%Z then n else default.

Arguments to_unsigned_long : simpl never.
Arguments reflect_unsigned_long : simpl never.

(** [canvas.width = x] and [canvas.height = x]; the defaults of a canvas
    are 300 and 150. *)
Definition set_width (canvas : Canvas) (x : Q) : Canvas :=
  {| width := reflect_unsigned_long 300 x; height := height canvas |}.

Definition set_height (canvas : Canvas) (x : Q) : Canvas :=
  {| width := width canvas; height := reflect_unsigned_long 150 x |}.

Record Context2D : Type :=
  { imageSmoothingEnabled : bool; imageSmoothingQuality : string }.

Record Blob : Type := { blob_type : string; blob_bytes : list Byte.byte }.

(** The host's [File]: the argument of the conversion and, built by
    [new File([blob], name, { type })], its product. *)
Record File : Type :=
  { name : string; type : string; parts : list Blob }.

(** [interface PdfConversionResult]; [error?: string] is optional. *)
Record PdfConversionResult : Type :=
  { imageUrl : string; file : option File; error : option string }.

(** The engine boundary: what the code uses of the module it imports. *)
Record Engine : Type :=
  { Doc : Type;
    Page : Type;
    getDocument : list Byte.byte -> outcome Doc;
    getPage : Doc -> Z -> outcome Page;
    getViewport : Page -> Q -> outcome Viewport;
    render : Page -> Context2D -> Viewport -> outcome unit }.

(** The imported module object with its [GlobalWorkerOptions.workerSrc]. *)
Record Lib : Type := { engine : Engine; workerSrc : option string }.

(** The module object of the [?url] asset import: [mod] itself may be falsy,
    its [default] export may be missing. *)
Inductive WorkerMod : Type :=
| ModFalsy
| ModObject (default : option string).

(** The environment of one run: how each external operation settles. *)
Record Host : Type :=
  { has_window : bool;
    import_pdfjs : outcome Lib;
    import_worker_url : outcome WorkerMod;
    arrayBuffer : File -> outcome (list Byte.byte);
    createElement : string -> outcome Canvas;
    getContext : Canvas -> string -> outcome (option Context2D);
    toBlob : Canvas -> string -> Q -> outcome (option Blob);
    createObjectURL : Blob -> outcome string }.

(** The external calls, with the arguments the code passes. *)
Inductive Call : Type :=
| CImport (specifier : string)
| CArrayBuffer (f : File)
| CGetDocument (data : list Byte.byte)
| CGetPage (pageNumber : Z)
| CGetViewport (scale : Q)
| CCreateElement (tag : string)
| CGetContext (contextId : string)
| CRender (context : Context2D) (viewport : Viewport)
| CToBlob (canvas : Canvas) (mime : string) (quality : Q)
| CCreateObjectURL (b : Blob)
| CConsoleError (label : string) (err : Thrown).

(** [loadPromise] is the promise of the async arrow function in
    [loadPdfJs].  While pending, the arrow is suspended at one of its two
    awaits. *)
Inductive InitStage : Type :=
| AwaitEngine
| AwaitWorkerUrl (lib : Lib).

Inductive PromiseState : Type :=
| Pending (stage : InitStage)
| Fulfilled (lib : Lib)
| Rejected (e : Thrown).

(** [let pdfjsLib: any = null; let loadPromise: Promise<any> | null = null;] *)
Record Globals : Type :=
  { pdfjsLib : option Lib; loadPromise : option PromiseState }.

Definition initial_globals : Globals :=
  {| pdfjsLib := None; loadPromise := None |}.

Record St : Type := { globals : Globals; calls : list Call }.

Definition JS (A : Type) : Type := M St A.

Definition log (c : Call) : JS unit :=
  modify (fun st => {| globals := globals st; calls := calls st ++ [c] |}).

(** An external call: it is logged, then awaited. *)
Definition call {A} (c : Call) (o : outcome A) : JS A :=
  log c ;;; settle o.

Definition set_pdfjsLib (lib : Lib) : JS unit :=
  modify (fun st =>
    {| globals := {| pdfjsLib := Some lib;
                     loadPromise := loadPromise (globals st) |};
       calls := calls st |}).

Definition set_loadPromise (p : PromiseState) : JS unit :=
  modify (fun st =>
    {| globals := {| pdfjsLib := pdfjsLib (globals st);
                     loadPromise := Some p |};
       calls := calls st |}).

(** [a || d] on a possibly undefined string: [undefined] and [""] are falsy. *)
Definition or_else (a : option string) (d : string) : string :=
  match a with
  | Some s => if String.eqb s "" then d else s
  | None => d
  end.

Definition engine_specifier : string := "pdfjs-dist/legacy/build/pdf.mjs".
Definition worker_specifier : string :=
  "pdfjs-dist/build/pdf.worker.min.mjs?url".
Definition fallback_worker_url : string := "/pdf.worker.min.mjs".

(** [mod && mod.default] *)
Definition mod_and_default (md : WorkerMod) : option string :=
  match md with
  | ModFalsy => None
  | ModObject d => d
  end.

(** The part of [getWorkerUrl] after its [await]. *)
Definition worker_url_of (o : outcome WorkerMod) : JS string :=
  try_catch
    (md <- settle o ;;
     ret (or_else (mod_and_default md) fallback_worker_url))
    (fun _ => ret fallback_worker_url).

(** [async function getWorkerUrl()] *)
Definition getWorkerUrl (h : Host) : JS string :=
  try_catch
    (md <- call (CImport worker_specifier) (import_worker_url h) ;;
     ret (or_else (mod_and_default md) fallback_worker_url))
    (fun _ => ret fallback_worker_url).

(** The rest of the async arrow of [loadPdfJs] once the engine module [lib]
    is there and the worker URL is known. *)
Definition install (lib : Lib) (workerUrl : string) : JS Lib :=
  let lib := {| engine := engine lib; workerSrc := Some workerUrl |} in
  set_pdfjsLib lib ;;;
  ret lib.

(** The async arrow from the suspension point [stage] to its end. *)
Definition arrow_from (h : Host) (stage : InitStage) : JS Lib :=
  match stage with
  | AwaitEngine =>
      lib <- settle (import_pdfjs h) ;;
      workerUrl <- getWorkerUrl h ;;
      install lib workerUrl
  | AwaitWorkerUrl lib =>
      workerUrl <- worker_url_of (import_worker_url h) ;;
      install lib workerUrl
  end.

(** Awaiting [loadPromise]: a pending promise settles with the result of
    the arrow function, and the awaiting caller receives that result. *)
Definition await_load (h : Host) (p : PromiseState) : JS Lib :=
  match p with
  | Fulfilled lib => ret lib
  | Rejected e => throw e
  | Pending stage =>
      try_catch
        (lib <- arrow_from h stage ;;
         set_loadPromise (Fulfilled lib) ;;;
         ret lib)
        (fun e => set_loadPromise (Rejected e) ;;; throw e)
  end.

(** [async function loadPdfJs()] *)
Definition loadPdfJs (h : Host) : JS Lib :=
  st <- get ;;
  match pdfjsLib (globals st) with
  | Some lib => ret lib
  | None =>
      match loadPromise (globals st) with
      | Some p => await_load h p
      | None =>
          (* the arrow starts: it runs up to its first await *)
          log (CImport engine_specifier) ;;;
          set_loadPromise (Pending AwaitEngine) ;;;
          await_load h (Pending AwaitEngine)
      end
  end.

(** The three-field object literal of every failing return. *)
Definition failure (message : string) : PdfConversionResult :=
  {| imageUrl := ""; file := None; error := Some message |}.

(** The [try] block of [convertPdfToImage]. *)
Definition convert_try (h : Host) (file : File) : JS PdfConversionResult :=
  lib <- loadPdfJs h ;;
  let lib := engine lib in
  arrayBuffer <- call (CArrayBuffer file) (arrayBuffer h file) ;;
  pdf <- call (CGetDocument arrayBuffer) (getDocument lib arrayBuffer) ;;
  page <- call (CGetPage 1) (getPage lib pdf 1) ;;
  viewport <- call (CGetViewport 3) (getViewport lib page 3) ;;
  canvas <- call (CCreateElement "canvas") (createElement h "canvas") ;;
  context <- call (CGetContext "2d") (getContext h canvas "2d") ;;
  match context with
  | None => ret (failure "Unable to get 2D canvas context.")
  | Some context =>
      let canvas := set_width canvas (width viewport) in
      let canvas := set_height canvas (height viewport) in
      let context :=
        {| imageSmoothingEnabled := true;
           imageSmoothingQuality := imageSmoothingQuality context |} in
      let context :=
        {| imageSmoothingEnabled := imageSmoothingEnabled context;
           imageSmoothingQuality := "high" |} in
      call (CRender context viewport) (render lib page context viewport) ;;;
      blob <- call (CToBlob canvas "image/png" 1)
                   (toBlob h canvas "image/png" 1) ;;
      match blob with
      | None => ret (failure "Failed to create image blob from canvas.")
      | Some blob =>
          let originalName := replace_pdf (name file) "" in
          let imageFile :=
            {| name := originalName ++ ".png";
               type := "image/png";
               parts := [blob] |} in
          imageUrl <- call (CCreateObjectURL blob) (createObjectURL h blob) ;;
          ret {| imageUrl := imageUrl; file := Some imageFile; error := None |}
      end
  end.

(** The [catch (err: any)] clause. *)
Definition convert_catch (err : Thrown) : JS PdfConversionResult :=
  log (CConsoleError "convertPdfToImage error:" err) ;;;
  ret (failure ("Failed to convert PDF: " ++ message_or_string err)).

(** [export async function convertPdfToImage(file: File)].  The argument is
    tested with [!file], so [null] and [undefined] are inputs: [None]. *)
Definition convertPdfToImage (h : Host) (file : option File)
  : JS PdfConversionResult :=
  if negb (has_window h) then
    ret (failure "PDF conversion is only available in the browser.")
  else
    match file with
    | None => ret (failure "Please provide a valid .pdf file.")
    | Some file =>
        if negb (test_pdf (name file)) then
          ret (failure "Please provide a valid .pdf file.")
        else
          try_catch (convert_try h file) convert_catch
    end.

End Pdf2Img.

(* ------------------------------------------------------------------ *)
(** ** [loadPdfJs] under interleaving                                   *)
(* ------------------------------------------------------------------ *)

Module Loader.
Import Js JsM Pdf2Img.
Local Open Scope jsm_scope.

(** JavaScript runs one job at a time; control changes hands only at an
    [await].  Seen from [loadPdfJs], three things can happen: somebody calls
    it, the engine import settles, the worker asset import settles. *)
Inductive Event : Type :=
| EvCall
| EvEngineSettles (o : outcome Lib)
| EvWorkerUrlSettles (o : outcome WorkerMod).

(** The store, and for every call made so far (oldest first) what its
    promise has settled to, [None] while it is still waiting. *)
Record Sched : Type :=
  { store : St; answers : list (option (outcome Lib)) }.

Definition initial : Sched :=
  {| store := {| globals := initial_globals; calls := [] |}; answers := [] |}.

Definition answer_waiting (r : outcome Lib) (a : option (outcome Lib))
  : option (outcome Lib) :=
  match a with
  | None => Some r
  | Some x => Some x
  end.

(** The synchronous part of a call of [loadPdfJs], up to the point where it
    returns a value or a promise. *)
Definition on_call (s : Sched) : Sched :=
  match pdfjsLib (globals (store s)) with
  | Some lib => {| store := store s; answers := answers s ++ [Some (Ok lib)] |}
  | None =>
      match loadPromise (globals (store s)) with
      | Some (Fulfilled lib) =>
          {| store := store s; answers := answers s ++ [Some (Ok lib)] |}
      | Some (Rejected e) =>
          {| store := store s; answers := answers s ++ [Some (Throws e)] |}
      | Some (Pending _) =>
          {| store := store s; answers := answers s ++ [None] |}
      | None =>
          {| store := snd ((log (CImport engine_specifier) ;;;
                            set_loadPromise (Pending AwaitEngine)) (store s));
             answers := answers s ++ [None] |}
      end
  end.

(** The arrow function resumed after its first await. *)
Definition on_engine (o : outcome Lib) (s : Sched) : Sched :=
  match o with
  | Ok lib =>
      {| store := snd ((log (CImport worker_specifier) ;;;
                        set_loadPromise (Pending (AwaitWorkerUrl lib)))
                         (store s));
         answers := answers s |}
  | Throws e =>
      {| store := snd (set_loadPromise (Rejected e) (store s));
         answers := map (answer_waiting (Throws e)) (answers s) |}
  end.

(** [getWorkerUrl] resumed after its await, then the rest of the arrow. *)
Definition on_worker_url (lib : Lib) (o : outcome WorkerMod) (s : Sched)
  : Sched :=
  match (workerUrl <- worker_url_of o ;; install lib workerUrl) (store s) with
  | (Val lib', st') =>
      {| store := snd (set_loadPromise (Fulfilled lib') st');
         answers := map (answer_waiting (Ok lib')) (answers s) |}
  | (Exn e, st') =>
      {| store := snd (set_loadPromise (Rejected e) st');
         answers := map (answer_waiting (Throws e)) (answers s) |}
  end.

(** One event; [None] when the event cannot happen in this state. *)
Definition step (s : Sched) (ev : Event) : option Sched :=
  match ev with
  | EvCall => Some (on_call s)
  | EvEngineSettles o =>
      match loadPromise (globals (store s)) with
      | Some (Pending AwaitEngine) => Some (on_engine o s)
      | _ => None
      end
  | EvWorkerUrlSettles o =>
      match loadPromise (globals (store s)) with
      | Some (Pending (AwaitWorkerUrl lib)) => Some (on_worker_url lib o s)
      | _ => None
      end
  end.

Fixpoint exec (evs : list Event) (s : Sched) : option Sched :=
  match evs with
  | [] => Some s
  | ev :: evs' =>
      match step s ev with
      | Some s' => exec evs' s'
      | None => None
      end
  end.

(** Number of times the engine module was imported. *)
Fixpoint engine_imports (cs : list Call) : nat :=
  match cs with
  | [] => 0
  | CImport spec :: cs' =>
      (if String.eqb spec engine_specifier then 1 else 0) + engine_imports cs'
  | _ :: cs' => engine_imports cs'
  end.


(** The four phases of the loader's globals, with what each means for the
    log and for the callers.  [cs] is the log and [ans] the answers. *)
Inductive invariant : Sched -> Prop :=
| InvIdle cs :
    engine_imports cs = 0%nat ->
    invariant {| store := {| globals := initial_globals; calls := cs |};
                 answers := [] |}
| InvPending stage cs ans :
    engine_imports cs = 1%nat ->
    Forall (eq None) ans ->
    invariant {| store := {| globals :=
                               {| pdfjsLib := None;
                                  loadPromise := Some (Pending stage) |};
                             calls := cs |};
                 answers := ans |}
| InvRejected e cs ans :
    engine_imports cs = 1%nat ->
    Forall (eq (Some (Throws e))) ans ->
    invariant {| store := {| globals :=
                               {| pdfjsLib := None;
                                  loadPromise := Some (Rejected e) |};
                             calls := cs |};
                 answers := ans |}
| InvLoaded lib cs ans :
    engine_imports cs = 1%nat ->
    Forall (eq (Some (Ok lib))) ans ->
    invariant {| store := {| globals :=
                               {| pdfjsLib := Some lib;
                                  loadPromise := Some (Fulfilled lib) |};
                             calls := cs |};
                 answers := ans |}.

(** [loadPromise] has settled. *)
Definition settled (g : Globals) : Prop :=
  match loadPromise g with
  | Some (Fulfilled _) | Some (Rejected _) => True
  | Some (Pending _) | None => False
  end.

(** The events of one call that runs alone in host [h]. *)
Definition alone (h : Host) : list Event :=
  EvCall ::
  match import_pdfjs h with
  | Ok lib => [EvEngineSettles (Ok lib); EvWorkerUrlSettles (import_worker_url h)]
  | Throws e => [EvEngineSettles (Throws e)]
  end.

Definition outcome_of {A} (r : Res A) : outcome A :=
  match r with
  | Val a => Ok a
  | Exn e => Throws e
  end.

End Loader.

(* ------------------------------------------------------------------ *)
(** ** Vocabulary of the properties                                     *)
(* ------------------------------------------------------------------ *)

Module Props.
Import Js JsM Pdf2Img.

(** The page numbers asked of [getPage], the scales asked of [getViewport]
    and the canvas sizes handed to the PNG encoder, in call order. *)
Fixpoint pages_requested (cs : list Call) : list Z :=
  match cs with
  | [] => []
  | CGetPage n :: cs' => n :: pages_requested cs'
  | _ :: cs' => pages_requested cs'
  end.

Fixpoint scales_requested (cs : list Call) : list Q :=
  match cs with
  | [] => []
  | CGetViewport s :: cs' => s :: scales_requested cs'
  | _ :: cs' => scales_requested cs'
  end.

Fixpoint encoded_sizes (cs : list Call) : list Canvas :=
  match cs with
  | [] => []
  | CToBlob canvas _ _ :: cs' => canvas :: encoded_sizes cs'
  | _ :: cs' => encoded_sizes cs'
  end.

Fixpoint console_errors (cs : list Call) : nat :=
  match cs with
  | [] => 0
  | CConsoleError _ _ :: cs' => S (console_errors cs')
  | _ :: cs' => console_errors cs'
  end.

(** What engine [e] answers for page [n] of the document in [data] at scale
    [scale]; [None] when one of the three steps fails. *)
Definition page_viewport (e : Engine) (data : list Byte.byte) (n : Z)
    (scale : Q) : option Viewport :=
  match getDocument e data with
  | Ok pdf =>
      match getPage e pdf n with
      | Ok page =>
          match getViewport e page scale with
          | Ok viewport => Some viewport
          | Throws _ => None
          end
      | Throws _ => None
      end
  | Throws _ => None
  end.

(** An engine whose viewport is the page's own size times the scale. *)
Definition scales_native (e : Engine) (native : Page e -> Viewport)
  : Prop :=
  forall page scale,
    getViewport e page scale =
    Ok {| width := scale * width (native page);
          height := scale * height (native page) |}.

(** A host whose object URLs are never the empty string (they start with
    the scheme [blob:]). *)
Definition object_urls_nonempty (h : Host) : Prop :=
  forall b url, createObjectURL h b = Ok url -> url <> "".

(** The two shapes of a result. *)
Definition success_shape (r : PdfConversionResult) : Prop :=
  imageUrl r <> "" /\ file r <> None /\ error r = None.

Definition failure_shape (r : PdfConversionResult) : Prop :=
  error r <> None /\ imageUrl r = "" /\ file r = None.

(** The store after a run: the globals as the loader left them, the log
    extended by [new]. *)
Definition logged (st : St) (new : list Call) : St :=
  {| globals := globals st; calls := calls st ++ new |}.

(** The canvas once its width and height have been assigned from
    [viewport]. *)
Definition canvas_for (viewport : Viewport) : Canvas :=
  {| width := reflect_unsigned_long 300 (width viewport);
     height := reflect_unsigned_long 150 (height viewport) |}.

(** A stretch of the log made of module imports only. *)
Definition only_imports (cs : list Call) : Prop :=
  Forall (fun c => exists specifier, c = CImport specifier) cs.

(** The successful path: past the environment guard, every external
    operation of the [try] block succeeds.  [lib] and [st1] are what the
    loader returns and leaves, [data] the bytes read, [viewport] the
    viewport computed, [blob] the encoded image and [url] its object URL. *)
Definition main_path_ok (h : Host) (f : File) (st : St) (lib : Lib)
    (st1 : St) (data : list Byte.byte) (viewport : Viewport) (blob : Blob)
    (url : string) : Prop :=
  has_window h = true /\
  loadPdfJs h st = (Val lib, st1) /\
  arrayBuffer h f = Ok data /\
  exists pdf page canvas context,
    getDocument (engine lib) data = Ok pdf /\
    getPage (engine lib) pdf 1 = Ok page /\
    getViewport (engine lib) page 3 = Ok viewport /\
    createElement h "canvas" = Ok canvas /\
    getContext h canvas "2d" = Ok (Some context) /\
    render (engine lib) page
      {| imageSmoothingEnabled := true; imageSmoothingQuality := "high" |}
      viewport = Ok tt /\
    toBlob h (canvas_for viewport)
      "image/png" 1 = Ok (Some blob) /\
    createObjectURL h blob = Ok url.

(** The external calls made by one conversion: what it adds to the log. *)
Definition run_calls (h : Host) (f : File) (st : St) : list Call :=
  skipn (List.length (calls st))
        (calls (snd (convertPdfToImage h (Some f) st))).

(** The engine a call of the loader yields, if it yields one. *)
Definition loaded_engine (x : Res Lib * St) : option Engine :=
  match fst x with
  | Val lib => Some (engine lib)
  | Exn _ => None
  end.

(** One conversion asks the engine for page 1 only and for a viewport at
    scale 3 only, and encodes one canvas: the canvas whose width and height
    were assigned from that viewport, which for sizes below 2^31 are the
    integer parts of the viewport's.  For an engine that scales the page's
    own size, the viewport is three times that size. *)
Definition renders_first_page (h : Host) (f : File) (st : St) : Prop :=
  pages_requested (run_calls h f st) = [1%Z] /\
  scales_requested (run_calls h f st) = [3] /\
  exists lib st1 data pdf page viewport,
    loadPdfJs h st = (Val lib, st1) /\
    arrayBuffer h f = Ok data /\
    getDocument (engine lib) data = Ok pdf /\
    getPage (engine lib) pdf 1 = Ok page /\
    getViewport (engine lib) page 3 = Ok viewport /\
    encoded_sizes (run_calls h f st) = [canvas_for viewport] /\
    (0 <= width viewport -> width viewport < 2147483648 ->
     0 <= height viewport -> height viewport < 2147483648 ->
     encoded_sizes (run_calls h f st) =
       [{| width := Qfloor (width viewport);
           height := Qfloor (height viewport) |}]) /\
    forall native,
      scales_native (engine lib) native ->
      viewport = {| width := 3 * width (native page);
                    height := 3 * height (native page) |}.

End Props.

(* ------------------------------------------------------------------ *)
(** ** Concrete engines, hosts and files                                *)
(* ------------------------------------------------------------------ *)

Module Samples.
Import Js JsM Pdf2Img.

(** A toy engine: a document is its page count, a page is its own size
    (US Letter, in points). *)
Definition toy_engine : Engine :=
  {| Doc := nat;
     Page := Viewport;
     getDocument := fun data =>
       match data with
       | [] => Throws (ThrownError "InvalidPDFException" "Invalid PDF structure.")
       | _ :: _ => Ok 1%nat
       end;
     getPage := fun pdf n =>
       if (1 <=? n)%Z && (n <=? Z.of_nat pdf)%Z
       then Ok {| width := 612; height := 792 |}
       else Throws (ThrownError "Error" "Invalid page request.");
     getViewport := fun page scale =>
       Ok {| width := scale * width page; height := scale * height page |};
     render := fun _ _ _ => Ok tt |}.

Definition toy_lib : Lib := {| engine := toy_engine; workerSrc := None |}.

Definition png_blob : Blob :=
  {| blob_type := "image/png"; blob_bytes := [Byte.x89; Byte.x50] |}.

Definition browser : Host :=
  {| has_window := true;
     import_pdfjs := Ok toy_lib;
     import_worker_url := Ok (ModObject (Some "/assets/pdf.worker.min.mjs"));
     arrayBuffer := fun f => Ok (List.concat (map blob_bytes (parts f)));
     createElement := fun _ => Ok {| width := 300%Z; height := 150%Z |};
     getContext := fun _ _ =>
       Ok (Some {| imageSmoothingEnabled := true;
                   imageSmoothingQuality := "low" |});
     toBlob := fun _ _ _ => Ok (Some png_blob);
     createObjectURL := fun _ => Ok "blob:http://localhost/0001" |}.

(** The same browser with another PNG encoder and another URL. *)
Definition other_browser : Host :=
  {| has_window := true;
     import_pdfjs := import_pdfjs browser;
     import_worker_url := Throws (ThrownError "Error" "no such asset");
     arrayBuffer := arrayBuffer browser;
     createElement := createElement browser;
     getContext := getContext browser;
     toBlob := fun _ _ _ =>
       Ok (Some {| blob_type := "image/png"; blob_bytes := [Byte.x89] |});
     createObjectURL := fun _ => Ok "blob:http://localhost/0002" |}.

(** Server-side rendering: no [window]. *)
Definition server : Host :=
  {| has_window := false;
     import_pdfjs := import_pdfjs browser;
     import_worker_url := import_worker_url browser;
     arrayBuffer := arrayBuffer browser;
     createElement := createElement browser;
     getContext := getContext browser;
     toBlob := toBlob browser;
     createObjectURL := createObjectURL browser |}.

(** A browser that hands out no 2D context. *)
Definition browser_without_2d : Host :=
  {| has_window := true;
     import_pdfjs := import_pdfjs browser;
     import_worker_url := import_worker_url browser;
     arrayBuffer := arrayBuffer browser;
     createElement := createElement browser;
     getContext := fun _ _ => Ok None;
     toBlob := toBlob browser;
     createObjectURL := createObjectURL browser |}.

(** A browser in which the engine import rejects with [err]. *)
Definition browser_failing_import (err : Thrown) : Host :=
  {| has_window := true;
     import_pdfjs := Throws err;
     import_worker_url := import_worker_url browser;
     arrayBuffer := arrayBuffer browser;
     createElement := createElement browser;
     getContext := getContext browser;
     toBlob := toBlob browser;
     createObjectURL := createObjectURL browser |}.

Definition pdf_blob : Blob :=
  {| blob_type := "application/pdf"; blob_bytes := [Byte.x25; Byte.x50] |}.

Definition file_named (n : string) : File :=
  {| name := n; type := "application/pdf"; parts := [pdf_blob] |}.

Definition fresh : St := {| globals := initial_globals; calls := [] |}.

(** The engine module once the loader has set its worker URL, and the store
    a first conversion in [browser] leaves behind. *)
Definition loaded_lib : Lib :=
  {| engine := toy_engine; workerSrc := Some "/assets/pdf.worker.min.mjs" |}.

Definition loaded : St :=
  {| globals := {| pdfjsLib := Some loaded_lib;
                   loadPromise := Some (Fulfilled loaded_lib) |};
     calls := [CImport engine_specifier; CImport worker_specifier] |}.

Definition letter_at_3 : Viewport := {| width := 1836; height := 2376 |}.

(** The engine module with the fallback worker URL, and the store after a
    load whose asset import failed. *)
Definition fallback_lib : Lib :=
  {| engine := toy_engine; workerSrc := Some "/pdf.worker.min.mjs" |}.

Definition loaded_with_fallback : St :=
  {| globals := {| pdfjsLib := Some fallback_lib;
                   loadPromise := Some (Fulfilled fallback_lib) |};
     calls := [CImport engine_specifier; CImport worker_specifier] |}.

End Samples.

(* ------------------------------------------------------------------ *)
(** ** The shape of a run                                               *)
(* ------------------------------------------------------------------ *)

Module Traces.
Import Js JsM Pdf2Img Props.

(** The external calls of the [try] block after the loader, in program
    order, for the bytes [data], the viewport [viewport] and the encoded
    image [blob]. *)
Definition main_calls (f : File) (data : list Byte.byte)
    (viewport : Viewport) (blob : Blob) : list Call :=
  [CArrayBuffer f; CGetDocument data; CGetPage 1; CGetViewport 3;
   CCreateElement "canvas"; CGetContext "2d";
   CRender {| imageSmoothingEnabled := true;
              imageSmoothingQuality := "high" |} viewport;
   CToBlob (canvas_for viewport)
     "image/png" 1;
   CCreateObjectURL blob].

(** The position of a call in the program: imports first, the nine calls of
    the [try] block, the [console.error] of the [catch] clause last. *)
Definition stage (c : Call) : nat :=
  match c with
  | CImport _ => 0
  | CArrayBuffer _ => 1
  | CGetDocument _ => 2
  | CGetPage _ => 3
  | CGetViewport _ => 4
  | CCreateElement _ => 5
  | CGetContext _ => 6
  | CRender _ _ => 7
  | CToBlob _ _ _ => 8
  | CCreateObjectURL _ => 9
  | CConsoleError _ _ => 10
  end.

(** The arguments the program fixes, whatever the host answers. *)
Definition fixed_arguments (f : File) (c : Call) : Prop :=
  match c with
  | CImport specifier =>
      specifier = engine_specifier \/ specifier = worker_specifier
  | CArrayBuffer f' => f' = f
  | CGetDocument _ => True
  | CGetPage pageNumber => pageNumber = 1%Z
  | CGetViewport scale => scale = 3
  | CCreateElement tag => tag = "canvas"
  | CGetContext contextId => contextId = "2d"
  | CRender context _ =>
      context = {| imageSmoothingEnabled := true;
                   imageSmoothingQuality := "high" |}
  | CToBlob _ mime quality => mime = "image/png" /\ quality = 1
  | CCreateObjectURL _ => True
  | CConsoleError label _ => label = "convertPdfToImage error:"
  end.

(** What the loader can add to the log. *)
Definition load_imports (imports : list Call) : Prop :=
  imports = [] \/
  imports = [CImport engine_specifier] \/
  imports = [CImport worker_specifier] \/
  imports = [CImport engine_specifier; CImport worker_specifier].

(** The ways through the [try] block after the loader: how it ends, and
    the calls it has made by then. *)
Inductive try_path (h : Host) (f : File)
  : Res PdfConversionResult -> list Call -> Prop :=
| PathThrows n e data viewport blob :
    (n <= 9)%nat ->
    (n = 9%nat -> createObjectURL h blob = Throws e) ->
    try_path h f (Exn e) (firstn n (main_calls f data viewport blob))
| PathNoContext data viewport blob :
    try_path h f (Val (failure "Unable to get 2D canvas context."))
      (firstn 6 (main_calls f data viewport blob))
| PathNoBlob data viewport blob :
    try_path h f (Val (failure "Failed to create image blob from canvas."))
      (firstn 8 (main_calls f data viewport blob))
| PathSuccess data viewport blob url :
    createObjectURL h blob = Ok url ->
    try_path h f
      (Val {| imageUrl := url;
              file := Some {| name := JsString.replace_pdf (name f) "" ++ ".png";
                              type := "image/png";
                              parts := [blob] |};
              error := None |})
      (main_calls f data viewport blob).

(** What the [catch] clause adds to the result and to the log. *)
Definition caught_result (res : Res PdfConversionResult)
  : PdfConversionResult :=
  match res with
  | Val r => r
  | Exn e => failure ("Failed to convert PDF: " ++ message_or_string e)
  end.

Definition caught_calls (res : Res PdfConversionResult) : list Call :=
  match res with
  | Val _ => []
  | Exn e => [CConsoleError "convertPdfToImage error:" e]
  end.

End Traces.

(* ------------------------------------------------------------------ *)
(** ** Settling what is pending; more hosts                             *)
(* ------------------------------------------------------------------ *)

Module Scheduling.
Import Js JsM Pdf2Img Loader.

(** The settlement events still due in state [s], when the engine import
    settles as [o1] and the worker asset import as [o2]. *)
Definition drain (s : Sched) (o1 : outcome Lib) (o2 : outcome WorkerMod)
  : list Event :=
  match loadPromise (globals (store s)) with
  | Some (Pending AwaitEngine) =>
      EvEngineSettles o1 ::
      match o1 with
      | Ok _ => [EvWorkerUrlSettles o2]
      | Throws _ => []
      end
  | Some (Pending (AwaitWorkerUrl _)) => [EvWorkerUrlSettles o2]
  | _ => []
  end.

(** An engine handle whose worker URL is set, to a non-empty string. *)
Definition configured (lib : Lib) : Prop :=
  exists url, workerSrc lib = Some url /\ url <> "".

End Scheduling.

Module MoreSamples.
Import Js JsM Pdf2Img Samples.

(** A browser whose canvas encoder yields no blob. *)
Definition browser_without_encoder : Host :=
  {| has_window := true;
     import_pdfjs := import_pdfjs browser;
     import_worker_url := import_worker_url browser;
     arrayBuffer := arrayBuffer browser;
     createElement := createElement browser;
     getContext := getContext browser;
     toBlob := fun _ _ _ => Ok None;
     createObjectURL := createObjectURL browser |}.

(** An engine whose pages are A4, 595.28 by 841.89 points. *)
Definition a4_engine : Engine :=
  {| Doc := nat;
     Page := Viewport;
     getDocument := fun data =>
       match data with
       | [] => Throws (ThrownError "InvalidPDFException" "Invalid PDF structure.")
       | _ :: _ => Ok 1%nat
       end;
     getPage := fun pdf n =>
       if (1 <=? n)%Z && (n <=? Z.of_nat pdf)%Z
       then Ok {| width := 14882 # 25; height := 84189 # 100 |}
       else Throws (ThrownError "Error" "Invalid page request.");
     getViewport := fun page scale =>
       Ok {| width := scale * width page; height := scale * height page |};
     render := fun _ _ _ => Ok tt |}.

Definition a4_browser : Host :=
  {| has_window := true;
     import_pdfjs := Ok {| engine := a4_engine; workerSrc := None |};
     import_worker_url := import_worker_url browser;
     arrayBuffer := arrayBuffer browser;
     createElement := createElement browser;
     getContext := getContext browser;
     toBlob := toBlob browser;
     createObjectURL := createObjectURL browser |}.

(** The same browser with another PNG encoder and another URL. *)
Definition other_a4_browser : Host :=
  {| has_window := true;
     import_pdfjs := import_pdfjs a4_browser;
     import_worker_url := import_worker_url a4_browser;
     arrayBuffer := arrayBuffer a4_browser;
     createElement := createElement a4_browser;
     getContext := getContext a4_browser;
     toBlob := toBlob other_browser;
     createObjectURL := createObjectURL other_browser |}.

(** The store after a load that failed with [err]. *)
Definition failed_load (err : Thrown) : St :=
  {| globals := {| pdfjsLib := None; loadPromise := Some (Rejected err) |};
     calls := [CImport engine_specifier] |}.

End MoreSamples.

(* ------------------------------------------------------------------ *)
(** ** Facts about the suffix search                                    *)
(* ------------------------------------------------------------------ *)

Module JsStringFacts.
Import JsString.
Local Open Scope nat_scope.

Lemma char_match_ci_lower (p c : ascii) :
  In p pdf_pattern -> char_match_ci p c = Ascii.eqb (lower c) p.
Proof.
  intros Hp.
  destruct c as [b0 b1 b2 b3 b4 b5 b6 b7].
  simpl in Hp.
  destruct Hp as [<- | [<- | [<- | [<- | []]]]];
    destruct b0, b1, b2, b3, b4, b5, b6, b7; reflexivity.
Qed.

Lemma match_here_length (pat : list ascii) (s : string) :
  match_here pat s = true -> String.length s = List.length pat.
Proof.
  revert s.
  induction pat as [| p pat IH]; intros [| c s] H; simpl in *;
    try discriminate; try reflexivity.
  apply andb_true_iff in H as [_ H].
  f_equal. now apply IH.
Qed.

Lemma length_append (s t : string) :
  String.length (s ++ t) = String.length s + String.length t.
Proof. induction s as [| c s IH]; simpl; [reflexivity | now rewrite IH]. Qed.

Lemma take_append (s t : string) : take (String.length s) (s ++ t) = s.
Proof. induction s as [| c s IH]; simpl; [now destruct t | now rewrite IH]. Qed.

Lemma drop_append (s t : string) (n : nat) :
  drop (String.length s + n) (s ++ t) = drop n t.
Proof. induction s as [| c s IH]; simpl; [reflexivity | apply IH]. Qed.

Lemma drop_all (s : string) (n : nat) :
  String.length s <= n -> drop n s = "".
Proof.
  revert n.
  induction s as [| c s IH]; intros [| n] H; simpl in *;
    try reflexivity; try lia.
  apply IH. lia.
Qed.

Lemma take_drop (s : string) (n : nat) : take n s ++ drop n s = s.
Proof.
  revert s.
  induction n as [| n IH]; intros [| c s]; simpl; try reflexivity.
  now rewrite IH.
Qed.

Lemma append_empty_r (s : string) : s ++ "" = s.
Proof. induction s as [| c s IH]; simpl; [reflexivity | now rewrite IH]. Qed.

(** A match that starts at [i] is the split of the string at [i]. *)
Lemma regex_search_Some (pat : list ascii) (s : string) (i : nat) :
  regex_search pat s = Some i ->
  match_here pat (drop i s) = true /\ i + List.length pat = String.length s.
Proof.
  revert i.
  induction s as [| c s IH]; intros i H; simpl in H.
  - destruct (match_here pat "") eqn:E; [| discriminate].
    injection H as <-. split; [exact E |].
    apply match_here_length in E. simpl in *. lia.
  - destruct (match_here pat (String c s)) eqn:E.
    + injection H as <-. split; [exact E |].
      apply match_here_length in E. simpl in *. lia.
    + destruct (regex_search pat s) as [j |] eqn:Ej; [| discriminate].
      simpl in H. injection H as <-.
      destruct (IH j eq_refl) as [Hm Hl]. split; [exact Hm | simpl; lia].
Qed.

(** The search finds a matching suffix, and finds it where it starts. *)
Lemma regex_search_suffix (pat : list ascii) (stem ext : string) :
  match_here pat ext = true ->
  regex_search pat (stem ++ ext) = Some (String.length stem).
Proof.
  intros Hext.
  induction stem as [| c stem IH]; simpl.
  - destruct ext; simpl in *; now rewrite Hext.
  - destruct (match_here pat (String c (stem ++ ext))) eqn:E.
    + apply match_here_length in E. apply match_here_length in Hext.
      simpl in E. rewrite length_append in E. lia.
    + now rewrite IH.
Qed.

Lemma lowercase_match (ext : string) :
  match_here pdf_pattern ext = true <-> lowercase ext = ".pdf".
Proof.
  unfold pdf_pattern.
  destruct ext as [| c1 [| c2 [| c3 [| c4 [| c5 ext]]]]]; simpl;
    rewrite ?char_match_ci_lower by (simpl; tauto);
    rewrite ?andb_false_r, ?andb_true_r;
    try (split; intros H; discriminate H).
  rewrite !andb_true_iff, !Ascii.eqb_eq.
  split.
  - intros (-> & -> & -> & ->). reflexivity.
  - intros H. injection H as -> -> -> ->. tauto.
Qed.

(** [test] accepts exactly the names with a [.pdf] suffix in any case. *)
Lemma test_pdf_iff (s : string) :
  test_pdf s = true <->
  exists stem ext, s = stem ++ ext /\ lowercase ext = ".pdf".
Proof.
  unfold test_pdf. split.
  - destruct (regex_search pdf_pattern s) as [i |] eqn:E; [| discriminate].
    intros _. apply regex_search_Some in E as [Hm _].
    exists (take i s), (drop i s).
    split; [symmetry; apply take_drop | now apply lowercase_match].
  - intros (stem & ext & -> & Hext).
    apply lowercase_match in Hext.
    now rewrite (regex_search_suffix _ stem ext Hext).
Qed.

(** [replace] removes that suffix and nothing else. *)
Lemma replace_pdf_suffix (stem ext r : string) :
  lowercase ext = ".pdf" -> replace_pdf (stem ++ ext) r = stem ++ r.
Proof.
  intros Hext. apply lowercase_match in Hext.
  unfold replace_pdf.
  rewrite (regex_search_suffix _ stem ext Hext).
  rewrite take_append, drop_append.
  rewrite drop_all by (apply match_here_length in Hext; lia).
  now rewrite append_empty_r.
Qed.

Lemma replace_pdf_no_match (s r : string) :
  test_pdf s = false -> replace_pdf s r = s.
Proof.
  unfold test_pdf, replace_pdf.
  now destruct (regex_search pdf_pattern s).
Qed.

End JsStringFacts.

(* ------------------------------------------------------------------ *)
(** ** Properties of the conversion                                     *)
(* ------------------------------------------------------------------ *)

Module Pdf2ImgFacts.
Import Js JsM JsString JsStringFacts Pdf2Img Props Samples.
Local Open Scope jsm_scope.

(** Unfolds the monad, leaving nested case distinctions on the way the
    external operations settle. *)
Ltac unfold_js :=
  unfold call, log, set_pdfjsLib, set_loadPromise, bind, try_catch, settle,
    modify, get, ret, throw in *.

(** Splits on the next external operation the goal inspects. *)
Ltac next_outcome :=
  match goal with
  | |- context [loadPdfJs ?h ?st] =>
      let lib := fresh "lib" in
      let err := fresh "err" in
      let st1 := fresh "st1" in
      let E := fresh "Eload" in
      destruct (loadPdfJs h st) as [[lib | err] st1] eqn:E
  | |- context [match ?o with Ok _ => _ | Throws _ => _ end] =>
      let E := fresh "E" in destruct o eqn:E
  | |- context [match ?o with Some _ => _ | None => _ end] =>
      let E := fresh "E" in destruct o eqn:E
  end; cbn [fst snd globals calls].

Lemma getWorkerUrl_run (h : Host) (st : St) :
  getWorkerUrl h st =
  (Val match import_worker_url h with
       | Ok md => or_else (mod_and_default md) fallback_worker_url
       | Throws _ => fallback_worker_url
       end,
   logged st [CImport worker_specifier]).
Proof.
  unfold getWorkerUrl, logged. unfold_js.
  now destruct (import_worker_url h).
Qed.

(** The catch clause always returns. *)
Lemma convert_catch_run (err : Thrown) (st : St) :
  convert_catch err st =
  (Val (failure ("Failed to convert PDF: " ++ message_or_string err)),
   logged st [CConsoleError "convertPdfToImage error:" err]).
Proof. reflexivity. Qed.

(** Past its two guards the function is its [try] block under its [catch]
    clause. *)
Lemma convert_past_guards (h : Host) (f : File) (st : St) :
  has_window h = true -> test_pdf (name f) = true ->
  convertPdfToImage h (Some f) st =
  try_catch (convert_try h f) convert_catch st.
Proof.
  intros Hw Ht. unfold convertPdfToImage. now rewrite Hw, Ht.
Qed.

(** Every way through the [try] block: a value is one of the two guard
    results of the block or the success object. *)
Lemma convert_try_value (h : Host) (f : File) (st st' : St)
    (r : PdfConversionResult) :
  convert_try h f st = (Val r, st') ->
  r = failure "Unable to get 2D canvas context." \/
  r = failure "Failed to create image blob from canvas." \/
  exists blob url,
    createObjectURL h blob = Ok url /\
    r = {| imageUrl := url;
           file := Some {| name := replace_pdf (name f) "" ++ ".png";
                           type := "image/png";
                           parts := [blob] |};
           error := None |}.
Proof.
  unfold convert_try, set_height, set_width. unfold_js.
  repeat (next_outcome; try discriminate);
    intros H; injection H as <- <-; eauto 8.
Qed.

(** The one way to the success object: every external operation of the
    block succeeded, in the order and with the arguments listed. *)
Lemma convert_try_success (h : Host) (f : File) (st st' : St)
    (r : PdfConversionResult) :
  convert_try h f st = (Val r, st') ->
  error r = None ->
  exists lib st1 data pdf page viewport canvas context blob url,
    loadPdfJs h st = (Val lib, st1) /\
    arrayBuffer h f = Ok data /\
    getDocument (engine lib) data = Ok pdf /\
    getPage (engine lib) pdf 1 = Ok page /\
    getViewport (engine lib) page 3 = Ok viewport /\
    createElement h "canvas" = Ok canvas /\
    getContext h canvas "2d" = Ok (Some context) /\
    render (engine lib) page
      {| imageSmoothingEnabled := true; imageSmoothingQuality := "high" |}
      viewport = Ok tt /\
    toBlob h (canvas_for viewport)
      "image/png" 1 = Ok (Some blob) /\
    createObjectURL h blob = Ok url /\
    r = {| imageUrl := url;
           file := Some {| name := replace_pdf (name f) "" ++ ".png";
                           type := "image/png";
                           parts := [blob] |};
           error := None |} /\
    st' = logged st1
            [CArrayBuffer f; CGetDocument data; CGetPage 1; CGetViewport 3;
             CCreateElement "canvas"; CGetContext "2d";
             CRender {| imageSmoothingEnabled := true;
                        imageSmoothingQuality := "high" |} viewport;
             CToBlob (canvas_for viewport)
               "image/png" 1;
             CCreateObjectURL blob].
Proof.
  unfold convert_try, set_height, set_width, canvas_for. unfold_js.
  repeat (next_outcome; try discriminate);
    intros H; injection H as <- <-; intros Herr; try discriminate Herr.
  cbn in *.
  match goal with u : unit |- _ => destruct u end.
  do 10 eexists.
  repeat (split; [eassumption || reflexivity |]).
  unfold logged. cbn. now rewrite <- !app_assoc.
Qed.

(** The loader touches the log with imports only. *)
Lemma loadPdfJs_calls (h : Host) (st st1 : St) (r : Res Lib) :
  loadPdfJs h st = (r, st1) ->
  exists imports,
    calls st1 = (calls st ++ imports)%list /\ only_imports imports.
Proof.
  assert (Himp : forall spec, exists specifier, CImport spec = CImport specifier)
    by (intros spec; now exists spec).
  unfold loadPdfJs, await_load, arrow_from, getWorkerUrl, worker_url_of,
    install. unfold_js.
  destruct (pdfjsLib (globals st)) as [lib |].
  - intros H. injection H as <- <-. exists [].
    split; [now rewrite app_nil_r | constructor].
  - destruct (loadPromise (globals st)) as [[[| lib] | lib | e] |];
      destruct (import_pdfjs h); destruct (import_worker_url h);
      cbn; intros H; injection H as <- <-; cbn;
      rewrite <- ?app_assoc;
      solve [ exists []; split; [now rewrite app_nil_r | constructor]
            | eexists; split; [reflexivity |]; repeat constructor; apply Himp ].
Qed.

Lemma pages_requested_app (a b : list Call) :
  pages_requested (a ++ b) = (pages_requested a ++ pages_requested b)%list.
Proof.
  induction a as [| c a IH]; [reflexivity |].
  destruct c; cbn; now rewrite ?IH.
Qed.

Lemma scales_requested_app (a b : list Call) :
  scales_requested (a ++ b) = (scales_requested a ++ scales_requested b)%list.
Proof.
  induction a as [| c a IH]; [reflexivity |].
  destruct c; cbn; now rewrite ?IH.
Qed.

Lemma encoded_sizes_app (a b : list Call) :
  encoded_sizes (a ++ b) = (encoded_sizes a ++ encoded_sizes b)%list.
Proof.
  induction a as [| c a IH]; [reflexivity |].
  destruct c; cbn; now rewrite ?IH.
Qed.

Lemma console_errors_app (a b : list Call) :
  console_errors (a ++ b) = (console_errors a + console_errors b)%nat.
Proof.
  induction a as [| c a IH]; [reflexivity |].
  destruct c; cbn; now rewrite ?IH.
Qed.

Lemma only_imports_silent (cs : list Call) :
  only_imports cs ->
  pages_requested cs = [] /\ scales_requested cs = [] /\
  encoded_sizes cs = [] /\ console_errors cs = 0%nat.
Proof.
  induction 1 as [| c cs [spec ->] _ IH]; [now repeat split |].
  exact IH.
Qed.

Lemma skipn_length_app {A} (a b : list A) :
  skipn (List.length a) (a ++ b)%list = b.
Proof. induction a as [| x a IH]; [reflexivity | exact IH]. Qed.

(** The calls of a run that went through the loader and then made the calls
    [main]. *)
Lemma run_calls_after_loader (h : Host) (f : File) (st st1 : St)
    (r : PdfConversionResult) (rl : Res Lib) (main : list Call) :
  loadPdfJs h st = (rl, st1) ->
  convertPdfToImage h (Some f) st = (Val r, logged st1 main) ->
  exists imports,
    only_imports imports /\ run_calls h f st = (imports ++ main)%list.
Proof.
  intros Hload Hrun.
  destruct (loadPdfJs_calls h st st1 rl Hload) as (imports & Hcalls & Himp).
  exists imports. split; [exact Himp |].
  unfold run_calls. rewrite Hrun. cbn. rewrite Hcalls, <- app_assoc.
  apply skipn_length_app.
Qed.

(** On the successful path the function returns the success object. *)
Lemma convert_main_path (h : Host) (f : File) (st st1 : St) (lib : Lib)
    (data : list Byte.byte) (viewport : Viewport) (blob : Blob)
    (url : string) :
  test_pdf (name f) = true ->
  main_path_ok h f st lib st1 data viewport blob url ->
  convertPdfToImage h (Some f) st =
  (Val {| imageUrl := url;
          file := Some {| name := replace_pdf (name f) "" ++ ".png";
                          type := "image/png";
                          parts := [blob] |};
          error := None |},
   logged st1
     [CArrayBuffer f; CGetDocument data; CGetPage 1; CGetViewport 3;
      CCreateElement "canvas"; CGetContext "2d";
      CRender {| imageSmoothingEnabled := true;
                 imageSmoothingQuality := "high" |} viewport;
      CToBlob (canvas_for viewport)
        "image/png" 1;
      CCreateObjectURL blob]).
Proof.
  intros Ht (Hw & Hload & Hread & pdf & page & canvas & context & Hdoc & Hpage
             & Hview & Hcanvas & Hctx & Hrender & Hblob & Hurl).
  rewrite (convert_past_guards h f st Hw Ht).
  unfold canvas_for in *. unfold convert_try, set_height, set_width. unfold_js.
  rewrite Hload. cbn. rewrite Hread, Hdoc. cbn. rewrite Hpage, Hview. cbn.
  rewrite Hcanvas, Hctx. cbn. rewrite Hrender, Hblob. cbn. rewrite Hurl.
  unfold logged. cbn. now rewrite <- !app_assoc.
Qed.

(** A result without error comes from the successful path. *)
Lemma convert_success (h : Host) (f : File) (st st' : St)
    (r : PdfConversionResult) :
  convertPdfToImage h (Some f) st = (Val r, st') ->
  error r = None ->
  test_pdf (name f) = true /\
  exists lib st1 data viewport blob url,
    main_path_ok h f st lib st1 data viewport blob url.
Proof.
  unfold convertPdfToImage.
  destruct (has_window h) eqn:Hw; cbn [negb];
    [| intros H; injection H as <- <-; discriminate].
  destruct (test_pdf (name f)) eqn:Ht; cbn [negb];
    [| intros H; injection H as <- <-; discriminate].
  unfold try_catch.
  destruct (convert_try h f st) as [[r' | e] st1'] eqn:Etry.
  - intros H Herr. injection H as -> ->.
    destruct (convert_try_success h f st st' r Etry Herr)
      as (lib & st1 & data & pdf & page & viewport & canvas & context & blob
          & url & H1 & H2 & H3 & H4 & H5 & H6 & H7 & H8 & H9 & H10 & _ & _).
    split; [reflexivity |].
    exists lib, st1, data, viewport, blob, url.
    unfold main_path_ok. eauto 20.
  - rewrite convert_catch_run. intros H; injection H as <- <-; discriminate.
Qed.

(** The function always returns a result object. *)
Lemma convert_total (h : Host) (file : option File) (st : St) :
  exists r st', convertPdfToImage h file st = (Val r, st').
Proof.
  unfold convertPdfToImage.
  destruct (negb (has_window h)); [now do 2 eexists |].
  destruct file as [f |]; [| now do 2 eexists].
  destruct (negb (test_pdf (name f))); [now do 2 eexists |].
  unfold try_catch.
  destruct (convert_try h f st) as [[r | e] st'];
    [| rewrite convert_catch_run]; now do 2 eexists.
Qed.

(** Failures of the stages of the [try] block surface as its exception:
    the engine load, the byte read, the parse, the rendering, the
    encoding. *)
Lemma convert_try_load_fails (h : Host) (f : File) (st st1 : St)
    (e : Thrown) :
  loadPdfJs h st = (Exn e, st1) -> convert_try h f st = (Exn e, st1).
Proof.
  intros Hload. unfold convert_try, set_height, set_width. unfold_js. now rewrite Hload.
Qed.

Lemma convert_try_read_fails (h : Host) (f : File) (st st1 : St) (lib : Lib)
    (e : Thrown) :
  loadPdfJs h st = (Val lib, st1) ->
  arrayBuffer h f = Throws e ->
  convert_try h f st = (Exn e, logged st1 [CArrayBuffer f]).
Proof.
  intros Hload Hread. unfold convert_try, set_height, set_width. unfold_js.
  now rewrite Hload, Hread.
Qed.

Lemma convert_try_parse_fails (h : Host) (f : File) (st st1 : St) (lib : Lib)
    (data : list Byte.byte) (e : Thrown) :
  loadPdfJs h st = (Val lib, st1) ->
  arrayBuffer h f = Ok data ->
  getDocument (engine lib) data = Throws e ->
  convert_try h f st =
  (Exn e, logged st1 [CArrayBuffer f; CGetDocument data]).
Proof.
  intros Hload Hread Hdoc. unfold convert_try, set_height, set_width. unfold_js.
  rewrite Hload. cbn. rewrite Hread, Hdoc.
  unfold logged. cbn. now rewrite <- !app_assoc.
Qed.

Lemma convert_try_render_or_encode_fails (h : Host) (f : File) (st st1 : St)
    (lib : Lib) (data : list Byte.byte) (pdf : Doc (engine lib))
    (page : Page (engine lib)) (viewport : Viewport) (canvas : Canvas)
    (context : Context2D) (e : Thrown) :
  loadPdfJs h st = (Val lib, st1) ->
  arrayBuffer h f = Ok data ->
  getDocument (engine lib) data = Ok pdf ->
  getPage (engine lib) pdf 1 = Ok page ->
  getViewport (engine lib) page 3 = Ok viewport ->
  createElement h "canvas" = Ok canvas ->
  getContext h canvas "2d" = Ok (Some context) ->
  render (engine lib) page
    {| imageSmoothingEnabled := true; imageSmoothingQuality := "high" |}
    viewport = Throws e \/
  (render (engine lib) page
     {| imageSmoothingEnabled := true; imageSmoothingQuality := "high" |}
     viewport = Ok tt /\
   toBlob h (canvas_for viewport)
     "image/png" 1 = Throws e) ->
  fst (convert_try h f st) = Exn e.
Proof.
  intros Hload Hread Hdoc Hpage Hview Hcanvas Hctx Hfail.
  unfold canvas_for in *. unfold convert_try, set_height, set_width. unfold_js.
  rewrite Hload. cbn. rewrite Hread, Hdoc. cbn. rewrite Hpage, Hview. cbn.
  rewrite Hcanvas, Hctx. cbn.
  destruct Hfail as [-> | [-> ->]]; reflexivity.
Qed.

Lemma suffix_free_test (s : string) :
  (forall stem ext, s = stem ++ ext -> lowercase ext <> ".pdf") ->
  test_pdf s = false.
Proof.
  intros H. destruct (test_pdf s) eqn:E; [| reflexivity].
  apply test_pdf_iff in E as (stem & ext & Hs & Hext).
  now destruct (H stem ext Hs).
Qed.

Lemma test_suffix_free (s : string) :
  test_pdf s = false ->
  forall stem ext, s = stem ++ ext -> lowercase ext <> ".pdf".
Proof.
  intros E stem ext Hs Hext.
  assert (test_pdf s = true) by (apply test_pdf_iff; eauto).
  congruence.
Qed.

(** C9: [getWorkerUrl] never throws.  Whatever the asset import does, it
    returns a string after that one import: the default export when that is
    a non-empty string, and the path [/pdf.worker.min.mjs] when the import
    fails, the module is falsy, or the default export is missing or empty. *)
Theorem getWorkerUrl_never_raises (h : Host) (st : St) :
  getWorkerUrl h st =
  (Val match import_worker_url h with
       | Ok (ModObject (Some url)) =>
           if String.eqb url "" then "/pdf.worker.min.mjs" else url
       | Ok (ModObject None) => "/pdf.worker.min.mjs"
       | Ok ModFalsy => "/pdf.worker.min.mjs"
       | Throws _ => "/pdf.worker.min.mjs"
       end,
   logged st [CImport "pdfjs-dist/build/pdf.worker.min.mjs?url"]).
Proof.
  rewrite getWorkerUrl_run.
  destruct (import_worker_url h) as [[| [url |]] | e]; reflexivity.
Qed.

(** C4: without a [window] the conversion returns the environment error at
    once, for every file argument, valid or not: the store is untouched and
    no external call is made. *)
Theorem outside_browser (h : Host) (file : option File) (st : St) :
  has_window h = false ->
  convertPdfToImage h file st =
  (Val {| imageUrl := "";
          file := None;
          error := Some "PDF conversion is only available in the browser." |},
   st).
Proof.
  intros Hw. unfold convertPdfToImage. now rewrite Hw.
Qed.

Lemma outside_browser_witness :
  has_window server = false /\
  convertPdfToImage server (Some (file_named "cv.pdf")) fresh =
  (Val {| imageUrl := "";
          file := None;
          error := Some "PDF conversion is only available in the browser." |},
   fresh).
Proof.
  split; [reflexivity |].
  apply (outside_browser server (Some (file_named "cv.pdf")) fresh).
  reflexivity.
Defined.

(** C3, as stated, fails outside a browser: with no [window] a missing file
    is answered with the environment error, not with the validation
    error. *)
Lemma invalid_file_outside_browser :
  fst (convertPdfToImage server None fresh) =
    Val (failure "PDF conversion is only available in the browser.") /\
  fst (convertPdfToImage server None fresh) <>
    Val (failure "Please provide a valid .pdf file.").
Proof.
  split; [reflexivity | discriminate].
Qed.

(** C3, amended: where a [window] exists, a missing file and a file whose
    name has no [.pdf] suffix (in any case) are answered with the
    validation error; the store, hence the state of the engine loader, is
    unchanged and no external call is made. *)
Theorem invalid_file_in_browser (h : Host) (file : option File) (st : St) :
  has_window h = true ->
  (file = None \/
   exists f, file = Some f /\
     forall stem ext, name f = stem ++ ext -> lowercase ext <> ".pdf") ->
  convertPdfToImage h file st =
  (Val {| imageUrl := "";
          file := None;
          error := Some "Please provide a valid .pdf file." |},
   st).
Proof.
  intros Hw Hfile. unfold convertPdfToImage. rewrite Hw. cbn.
  destruct Hfile as [-> | (f & -> & Hname)]; [reflexivity |].
  now rewrite (suffix_free_test _ Hname).
Qed.

Lemma invalid_file_in_browser_witness :
  has_window browser = true /\
  (forall stem ext,
     name (file_named "notes.txt") = stem ++ ext -> lowercase ext <> ".pdf") /\
  convertPdfToImage browser (Some (file_named "notes.txt")) fresh =
  (Val {| imageUrl := "";
          file := None;
          error := Some "Please provide a valid .pdf file." |},
   fresh).
Proof.
  assert (Hname : forall stem ext,
             name (file_named "notes.txt") = stem ++ ext ->
             lowercase ext <> ".pdf")
    by (apply test_suffix_free; reflexivity).
  split; [reflexivity | split; [exact Hname |]].
  apply (invalid_file_in_browser browser (Some (file_named "notes.txt")) fresh).
  - reflexivity.
  - right. exists (file_named "notes.txt"). split; [reflexivity | exact Hname].
Defined.

(** C2, as stated, fails for an error whose message is empty: the text after
    the prefix is then the string form of the error, not its message. *)
Lemma empty_message_not_reported :
  fst (convert_try (browser_failing_import (ThrownError "Error" ""))
         (file_named "cv.pdf") fresh) = Exn (ThrownError "Error" "") /\
  message_of (ThrownError "Error" "") = Some "" /\
  fst (convertPdfToImage (browser_failing_import (ThrownError "Error" ""))
         (Some (file_named "cv.pdf")) fresh) =
    Val (failure "Failed to convert PDF: Error") /\
  fst (convertPdfToImage (browser_failing_import (ThrownError "Error" ""))
         (Some (file_named "cv.pdf")) fresh) <>
    Val (failure ("Failed to convert PDF: " ++ "")).
Proof.
  repeat split; try reflexivity. discriminate.
Qed.

(** C2, amended: no exception escapes [convertPdfToImage].  An exception
    raised in the [try] block is logged and turned into the result with
    empty [imageUrl], null [file] and the error
    [Failed to convert PDF: <text>], where the text is the message of the
    thrown value when it has a non-empty one, and its string form
    otherwise. *)
Theorem exceptions_become_results (h : Host) (f : File) (st st1 : St)
    (err : Thrown) :
  has_window h = true ->
  test_pdf (name f) = true ->
  convert_try h f st = (Exn err, st1) ->
  convertPdfToImage h (Some f) st =
    (Val {| imageUrl := "";
            file := None;
            error := Some ("Failed to convert PDF: " ++
                           match message_of err with
                           | Some m => if String.eqb m "" then String_of err
                                       else m
                           | None => String_of err
                           end) |},
     logged st1 [CConsoleError "convertPdfToImage error:" err]) /\
  (forall h' file' st0, exists r st',
      convertPdfToImage h' file' st0 = (Val r, st')).
Proof.
  intros Hw Ht Htry. split.
  - rewrite (convert_past_guards h f st Hw Ht).
    unfold try_catch. rewrite Htry. apply convert_catch_run.
  - intros h' file' st0. apply convert_total.
Qed.

Lemma exceptions_become_results_witness :
  has_window (browser_failing_import (ThrownError "TypeError" "fetch failed"))
    = true /\
  test_pdf (name (file_named "cv.pdf")) = true /\
  convert_try (browser_failing_import (ThrownError "TypeError" "fetch failed"))
    (file_named "cv.pdf") fresh =
    (Exn (ThrownError "TypeError" "fetch failed"),
     {| globals :=
          {| pdfjsLib := None;
             loadPromise :=
               Some (Rejected (ThrownError "TypeError" "fetch failed")) |};
        calls := [CImport engine_specifier] |}) /\
  convertPdfToImage
    (browser_failing_import (ThrownError "TypeError" "fetch failed"))
    (Some (file_named "cv.pdf")) fresh =
    (Val {| imageUrl := "";
            file := None;
            error := Some "Failed to convert PDF: fetch failed" |},
     {| globals :=
          {| pdfjsLib := None;
             loadPromise :=
               Some (Rejected (ThrownError "TypeError" "fetch failed")) |};
        calls := [CImport engine_specifier;
                  CConsoleError "convertPdfToImage error:"
                    (ThrownError "TypeError" "fetch failed")] |}).
Proof.
  refine (conj eq_refl (conj eq_refl (conj eq_refl _))).
  exact (proj1 (exceptions_become_results
    (browser_failing_import (ThrownError "TypeError" "fetch failed"))
    (file_named "cv.pdf") fresh _ _ eq_refl eq_refl eq_refl)).
Defined.

(** C1: every call returns a result, and the result has exactly one of two
    shapes: a non-empty [imageUrl] with a non-null [file] and no [error], or
    an [error] with an empty [imageUrl] and a null [file].  The URL is the
    host's object URL, which hosts never leave empty. *)
Theorem result_has_one_shape (h : Host) (file : option File) (st : St) :
  object_urls_nonempty h ->
  exists r st',
    convertPdfToImage h file st = (Val r, st') /\
    (success_shape r \/ failure_shape r) /\
    ~ (success_shape r /\ failure_shape r).
Proof.
  intros Hurl.
  assert (Hfail : forall m,
             (success_shape (failure m) \/ failure_shape (failure m)) /\
             ~ (success_shape (failure m) /\ failure_shape (failure m))).
  { intros m. unfold success_shape, failure_shape. cbn. split.
    - right. repeat split. discriminate.
    - intros [[_ [_ H]] _]. discriminate. }
  unfold convertPdfToImage.
  destruct (has_window h); cbn [negb];
    [| eexists; eexists; split; [reflexivity | apply Hfail]].
  destruct file as [f |];
    [| eexists; eexists; split; [reflexivity | apply Hfail]].
  destruct (test_pdf (name f)); cbn [negb];
    [| eexists; eexists; split; [reflexivity | apply Hfail]].
  unfold try_catch.
  destruct (convert_try h f st) as [[r | e] st'] eqn:Etry.
  - exists r, st'. split; [reflexivity |].
    apply convert_try_value in Etry
      as [-> | [-> | (blob & url & Hu & ->)]]; try apply Hfail.
    unfold success_shape, failure_shape. cbn. split.
    + left. repeat split; [now apply (Hurl blob) | discriminate].
    + intros [_ [H _]]. now apply H.
  - rewrite convert_catch_run.
    eexists; eexists; split; [reflexivity | apply Hfail].
Qed.

Lemma result_has_one_shape_witness :
  object_urls_nonempty browser /\
  exists r st',
    convertPdfToImage browser (Some (file_named "cv.pdf")) fresh = (Val r, st') /\
    (success_shape r \/ failure_shape r) /\
    ~ (success_shape r /\ failure_shape r).
Proof.
  assert (Hurl : object_urls_nonempty browser).
  { intros b url H. injection H as <-. discriminate. }
  split; [exact Hurl |].
  exact (result_has_one_shape browser (Some (file_named "cv.pdf")) fresh Hurl).
Defined.

Lemma browser_main_path (n : string) :
  main_path_ok browser (file_named n) fresh loaded_lib loaded
    [Byte.x25; Byte.x50] letter_at_3 png_blob "blob:http://localhost/0001".
Proof.
  unfold main_path_ok. repeat (split; [reflexivity |]).
  exists 1%nat, {| width := 612; height := 792 |},
    {| width := 300%Z; height := 150%Z |},
    {| imageSmoothingEnabled := true; imageSmoothingQuality := "low" |}.
  repeat split.
Defined.

Lemma browser_urls_nonempty : object_urls_nonempty browser.
Proof. intros b url H. injection H as <-. discriminate. Defined.

(** C6: on the successful path, for a file named [stem] followed by [.pdf]
    in any case, the result has no error, its [imageUrl] is the host's
    non-empty object URL, and its file has type [image/png] and the name
    [stem] followed by [.png]. *)
Theorem png_named_after_stem (h : Host) (f : File) (st st1 : St)
    (stem ext : string) (lib : Lib) (data : list Byte.byte)
    (viewport : Viewport) (blob : Blob) (url : string) :
  object_urls_nonempty h ->
  name f = stem ++ ext ->
  lowercase ext = ".pdf" ->
  main_path_ok h f st lib st1 data viewport blob url ->
  url <> "" /\
  exists st',
    convertPdfToImage h (Some f) st =
    (Val {| imageUrl := url;
            file := Some {| name := stem ++ ".png";
                            type := "image/png";
                            parts := [blob] |};
            error := None |},
     st').
Proof.
  intros Hurls Hname Hext Hok.
  assert (Ht : test_pdf (name f) = true)
    by (apply test_pdf_iff; now exists stem, ext).
  split.
  - destruct Hok as (_ & _ & _ & pdf & page & canvas & context & Hrest).
    apply (Hurls blob). apply Hrest.
  - eexists.
    rewrite (convert_main_path h f st st1 lib data viewport blob url Ht Hok).
    rewrite Hname, (replace_pdf_suffix stem ext "" Hext), append_empty_r.
    reflexivity.
Qed.

Lemma png_named_after_stem_witness :
  object_urls_nonempty browser /\
  name (file_named "cv.PDF") = "cv" ++ ".PDF" /\
  lowercase ".PDF" = ".pdf" /\
  main_path_ok browser (file_named "cv.PDF") fresh loaded_lib loaded
    [Byte.x25; Byte.x50] letter_at_3 png_blob "blob:http://localhost/0001" /\
  "blob:http://localhost/0001" <> "" /\
  exists st',
    convertPdfToImage browser (Some (file_named "cv.PDF")) fresh =
    (Val {| imageUrl := "blob:http://localhost/0001";
            file := Some {| name := "cv" ++ ".png";
                            type := "image/png";
                            parts := [png_blob] |};
            error := None |},
     st').
Proof.
  refine (conj browser_urls_nonempty
           (conj eq_refl (conj eq_refl (conj (browser_main_path "cv.PDF") _)))).
  exact (png_named_after_stem browser (file_named "cv.PDF") fresh loaded
           "cv" ".PDF" loaded_lib [Byte.x25; Byte.x50] letter_at_3 png_blob
           "blob:http://localhost/0001"
           browser_urls_nonempty eq_refl eq_refl (browser_main_path "cv.PDF")).
Defined.

(** The test looks at the last four characters and at nothing else. *)
Lemma test_pdf_last_four (s : string) :
  test_pdf s = true <->
  lowercase (drop (String.length s - 4) s) = ".pdf".
Proof.
  rewrite test_pdf_iff. split.
  - intros (stem & ext & -> & Hext).
    assert (Hlen : String.length ext = 4%nat)
      by (apply lowercase_match in Hext; now apply match_here_length in Hext).
    rewrite length_append, Hlen, Nat.add_sub.
    rewrite <- (Nat.add_0_r (String.length stem)), drop_append. exact Hext.
  - intros Hext.
    exists (take (String.length s - 4) s), (drop (String.length s - 4) s).
    split; [symmetry; apply take_drop | exact Hext].
Qed.

(** The replacement removes the last four characters and nothing else. *)
Lemma replace_pdf_last_four (s r : string) :
  test_pdf s = true ->
  replace_pdf s r = take (String.length s - 4) s ++ r.
Proof.
  intros Ht. apply test_pdf_iff in Ht as (stem & ext & -> & Hext).
  rewrite (replace_pdf_suffix stem ext r Hext).
  assert (Hlen : String.length ext = 4%nat)
    by (apply lowercase_match in Hext; now apply match_here_length in Hext).
  now rewrite length_append, Hlen, Nat.add_sub, take_append.
Qed.

(** C10: validation and stripping act on the final [.pdf] only, for every
    name.  A name is refused exactly when its last four characters are not
    [.pdf] in some case, whatever comes before them, so an earlier [.pdf]
    does not make a name valid; and on the successful path the image is
    named by the input name without its last four characters, followed by
    [.png], so an earlier [.pdf] is never touched.  In particular [.pdf]
    alone is accepted and gives [.png], and [a.pdf.pdf] gives
    [a.pdf.png]. *)
Theorem only_final_suffix (h : Host) (f : File) (st : St) :
  has_window h = true ->
  (lowercase (drop (String.length (name f) - 4) (name f)) <> ".pdf" ->
   convertPdfToImage h (Some f) st =
   (Val {| imageUrl := "";
           file := None;
           error := Some "Please provide a valid .pdf file." |},
    st)) /\
  (lowercase (drop (String.length (name f) - 4) (name f)) = ".pdf" ->
   forall st1 lib data viewport blob url,
     main_path_ok h f st lib st1 data viewport blob url ->
     exists st',
       convertPdfToImage h (Some f) st =
       (Val {| imageUrl := url;
               file := Some {| name := take (String.length (name f) - 4)
                                            (name f) ++ ".png";
                               type := "image/png";
                               parts := [blob] |};
               error := None |},
        st')) /\
  (name f = ".pdf" ->
   lowercase (drop (String.length (name f) - 4) (name f)) = ".pdf" /\
   take (String.length (name f) - 4) (name f) ++ ".png" = ".png") /\
  (name f = "a.pdf.pdf" ->
   lowercase (drop (String.length (name f) - 4) (name f)) = ".pdf" /\
   take (String.length (name f) - 4) (name f) ++ ".png" = "a.pdf.png").
Proof.
  intros Hw. repeat split.
  - intros Hext.
    assert (Ht : test_pdf (name f) = false).
    { destruct (test_pdf (name f)) eqn:E; [| reflexivity].
      apply test_pdf_last_four in E. now destruct Hext. }
    unfold convertPdfToImage. now rewrite Hw, Ht.
  - intros Hext st1 lib data viewport blob url Hok.
    apply test_pdf_last_four in Hext.
    eexists.
    rewrite (convert_main_path h f st st1 lib data viewport blob url Hext Hok).
    now rewrite (replace_pdf_last_four (name f) "" Hext), append_empty_r.
  - now rewrite H.
  - now rewrite H.
  - now rewrite H.
  - now rewrite H.
Qed.

Lemma only_final_suffix_witness :
  has_window browser = true /\
  convertPdfToImage browser (Some (file_named "a.pdf.txt")) fresh =
    (Val {| imageUrl := "";
            file := None;
            error := Some "Please provide a valid .pdf file." |},
     fresh) /\
  exists st',
    convertPdfToImage browser (Some (file_named "a.pdfx.pdf")) fresh =
    (Val {| imageUrl := "blob:http://localhost/0001";
            file := Some {| name := "a.pdfx.png";
                            type := "image/png";
                            parts := [png_blob] |};
            error := None |},
     st').
Proof.
  refine (conj eq_refl (conj _ _)).
  - refine (proj1 (only_final_suffix browser (file_named "a.pdf.txt") fresh
                     eq_refl) _).
    intros H. discriminate H.
  - exact (proj1 (proj2 (only_final_suffix browser (file_named "a.pdfx.pdf")
                           fresh eq_refl))
             eq_refl loaded loaded_lib [Byte.x25; Byte.x50] letter_at_3
             png_blob "blob:http://localhost/0001"
             (browser_main_path "a.pdfx.pdf")).
Defined.

(** C7: when the canvas gives no 2D context, the [try] block itself returns
    the result with the error [Unable to get 2D canvas context.], an empty
    [imageUrl] and a null [file]: nothing is thrown, the catch clause does
    not run, and neither the renderer nor the encoder is called. *)
Theorem no_2d_context_guard (h : Host) (f : File) (st st1 : St) (lib : Lib)
    (data : list Byte.byte) (pdf : Doc (engine lib))
    (page : Page (engine lib)) (viewport : Viewport) (canvas : Canvas) :
  has_window h = true ->
  test_pdf (name f) = true ->
  loadPdfJs h st = (Val lib, st1) ->
  arrayBuffer h f = Ok data ->
  getDocument (engine lib) data = Ok pdf ->
  getPage (engine lib) pdf 1 = Ok page ->
  getViewport (engine lib) page 3 = Ok viewport ->
  createElement h "canvas" = Ok canvas ->
  getContext h canvas "2d" = Ok None ->
  convert_try h f st =
    (Val {| imageUrl := "";
            file := None;
            error := Some "Unable to get 2D canvas context." |},
     logged st1
       [CArrayBuffer f; CGetDocument data; CGetPage 1; CGetViewport 3;
        CCreateElement "canvas"; CGetContext "2d"]) /\
  convertPdfToImage h (Some f) st = convert_try h f st /\
  console_errors (run_calls h f st) = 0%nat.
Proof.
  intros Hw Ht Hload Hread Hdoc Hpage Hview Hcanvas Hctx.
  assert (Htry : convert_try h f st =
            (Val (failure "Unable to get 2D canvas context."),
             logged st1
               [CArrayBuffer f; CGetDocument data; CGetPage 1; CGetViewport 3;
                CCreateElement "canvas"; CGetContext "2d"])).
  { unfold convert_try, set_height, set_width. unfold_js.
    rewrite Hload. cbn. rewrite Hread, Hdoc. cbn. rewrite Hpage, Hview. cbn.
    rewrite Hcanvas, Hctx. unfold logged. cbn. now rewrite <- !app_assoc. }
  assert (Hrun : convertPdfToImage h (Some f) st = convert_try h f st).
  { rewrite (convert_past_guards h f st Hw Ht).
    unfold try_catch. now rewrite Htry. }
  repeat split; [exact Htry | exact Hrun |].
  rewrite Htry in Hrun.
  destruct (run_calls_after_loader h f st st1 _ _ _ Hload Hrun)
    as (imports & Himp & ->).
  rewrite console_errors_app.
  now rewrite (proj2 (proj2 (proj2 (only_imports_silent imports Himp)))).
Qed.

Lemma no_2d_context_guard_witness :
  has_window browser_without_2d = true /\
  test_pdf (name (file_named "cv.pdf")) = true /\
  loadPdfJs browser_without_2d fresh = (Val loaded_lib, loaded) /\
  arrayBuffer browser_without_2d (file_named "cv.pdf")
    = Ok [Byte.x25; Byte.x50] /\
  getContext browser_without_2d {| width := 300%Z; height := 150%Z |} "2d"
    = Ok None /\
  convert_try browser_without_2d (file_named "cv.pdf") fresh =
    (Val {| imageUrl := "";
            file := None;
            error := Some "Unable to get 2D canvas context." |},
     logged loaded
       [CArrayBuffer (file_named "cv.pdf"); CGetDocument [Byte.x25; Byte.x50];
        CGetPage 1; CGetViewport 3; CCreateElement "canvas";
        CGetContext "2d"]) /\
  convertPdfToImage browser_without_2d (Some (file_named "cv.pdf")) fresh =
    convert_try browser_without_2d (file_named "cv.pdf") fresh /\
  console_errors (run_calls browser_without_2d (file_named "cv.pdf") fresh)
    = 0%nat.
Proof.
  refine (conj eq_refl (conj eq_refl (conj eq_refl (conj eq_refl
           (conj eq_refl _))))).
  exact (no_2d_context_guard browser_without_2d (file_named "cv.pdf") fresh
           loaded loaded_lib [Byte.x25; Byte.x50] 1%nat
           {| width := 612; height := 792 |} letter_at_3
           {| width := 300%Z; height := 150%Z |}
           eq_refl eq_refl eq_refl eq_refl eq_refl eq_refl eq_refl eq_refl
           eq_refl).
Defined.

(** Below 2^31 the setter stores the integer part of a non-negative
    number. *)
Lemma reflect_in_range (default : Z) (x : Q) :
  0 <= x -> x < 2147483648 -> reflect_unsigned_long default x = Qfloor x.
Proof.
  destruct x as [n d]. unfold Qle, Qlt, reflect_unsigned_long,
    to_unsigned_long, Qfloor. cbn [Qnum Qden].
  intros Hlow Hhigh.
  assert (Hn : (0 <= n)%Z) by lia.
  rewrite Z.quot_div_nonneg by lia.
  assert (Hq : (0 <= n / Z.pos d < 2147483648)%Z).
  { split; [apply Z.div_pos; lia |].
    apply Z.div_lt_upper_bound; lia. }
  rewrite Z.mod_small by (change (2 ^ 32)%Z with 4294967296%Z; lia).
  destruct (Z.leb_spec (n / Z.pos d) 2147483647); [reflexivity | lia].
Qed.

(** A conversion that returns without error has asked for page 1 at scale 3
    and encoded the canvas sized from that viewport. *)
Lemma success_renders_first_page (h : Host) (f : File) (st : St)
    (r : PdfConversionResult) :
  fst (convertPdfToImage h (Some f) st) = Val r ->
  error r = None ->
  renders_first_page h f st.
Proof.
  intros Hrun Herr.
  destruct (convertPdfToImage h (Some f) st) as [r' st'] eqn:Erun.
  cbn in Hrun. subst r'.
  destruct (convert_success h f st st' r Erun Herr)
    as (Ht & lib & st1 & data & viewport & blob & url & Hok).
  pose proof (convert_main_path h f st st1 lib data viewport blob url Ht Hok)
    as Hmain.
  destruct Hok as (Hw & Hload & Hread & pdf & page & canvas & context & Hdoc
                   & Hpage & Hview & _).
  destruct (run_calls_after_loader h f st st1 _ _ _ Hload Hmain)
    as (imports & Himp & Hcalls).
  destruct (only_imports_silent imports Himp) as (Hp & Hs & He & _).
  unfold renders_first_page. rewrite Hcalls.
  rewrite pages_requested_app, scales_requested_app, encoded_sizes_app.
  rewrite Hp, Hs, He. cbn.
  split; [reflexivity | split; [reflexivity |]].
  exists lib, st1, data, pdf, page, viewport.
  repeat (split; [assumption || reflexivity |]).
  split.
  - intros Hw0 Hw1 Hh0 Hh1. unfold canvas_for.
    now rewrite (reflect_in_range 300 _ Hw0 Hw1),
                (reflect_in_range 150 _ Hh0 Hh1).
  - intros native Hnative.
    rewrite (Hnative page 3) in Hview. now injection Hview as <-.
Qed.

(** C5: a successful conversion asks the engine for page 1 (its first page)
    and for the viewport at scale 3, three times the page's own size for an
    engine that scales it, and encodes the canvas sized from exactly that
    viewport (the integer parts of its width and height).  Two successful
    conversions of the same bytes with the same engine therefore encode
    canvases of the same size, whatever else the hosts do. *)
Theorem first_page_at_scale_three (h1 h2 : Host) (f : File) (st1 st2 : St)
    (r1 r2 : PdfConversionResult) :
  fst (convertPdfToImage h1 (Some f) st1) = Val r1 -> error r1 = None ->
  fst (convertPdfToImage h2 (Some f) st2) = Val r2 -> error r2 = None ->
  loaded_engine (loadPdfJs h1 st1) = loaded_engine (loadPdfJs h2 st2) ->
  arrayBuffer h1 f = arrayBuffer h2 f ->
  renders_first_page h1 f st1 /\
  renders_first_page h2 f st2 /\
  encoded_sizes (run_calls h1 f st1) = encoded_sizes (run_calls h2 f st2).
Proof.
  intros Hrun1 Herr1 Hrun2 Herr2 Hengine Hbytes.
  pose proof (success_renders_first_page h1 f st1 r1 Hrun1 Herr1) as H1.
  pose proof (success_renders_first_page h2 f st2 r2 Hrun2 Herr2) as H2.
  split; [exact H1 | split; [exact H2 |]].
  destruct H1 as (_ & _ & lib1 & s1 & data1 & pdf1 & page1 & v1 & Hl1 & Hb1
                  & Hd1 & Hp1 & Hv1 & -> & _).
  destruct H2 as (_ & _ & lib2 & s2 & data2 & pdf2 & page2 & v2 & Hl2 & Hb2
                  & Hd2 & Hp2 & Hv2 & -> & _).
  assert (E1 : page_viewport (engine lib1) data1 1 3 = Some v1)
    by (unfold page_viewport; now rewrite Hd1, Hp1, Hv1).
  assert (E2 : page_viewport (engine lib2) data2 1 3 = Some v2)
    by (unfold page_viewport; now rewrite Hd2, Hp2, Hv2).
  unfold loaded_engine in Hengine. rewrite Hl1, Hl2 in Hengine. cbn in Hengine.
  injection Hengine as Hengine.
  rewrite Hb1, Hb2 in Hbytes. injection Hbytes as Hbytes.
  rewrite Hengine, Hbytes, E2 in E1. now injection E1 as ->.
Qed.

Lemma first_page_at_scale_three_witness :
  fst (convertPdfToImage MoreSamples.a4_browser
         (Some (file_named "cv.pdf")) fresh) =
    Val {| imageUrl := "blob:http://localhost/0001";
           file := Some {| name := "cv.png"; type := "image/png";
                           parts := [png_blob] |};
           error := None |} /\
  fst (convertPdfToImage MoreSamples.other_a4_browser
         (Some (file_named "cv.pdf")) fresh) =
    Val {| imageUrl := "blob:http://localhost/0002";
           file := Some {| name := "cv.png"; type := "image/png";
                           parts := [{| blob_type := "image/png";
                                        blob_bytes := [Byte.x89] |}] |};
           error := None |} /\
  loaded_engine (loadPdfJs MoreSamples.a4_browser fresh) =
    loaded_engine (loadPdfJs MoreSamples.other_a4_browser fresh) /\
  arrayBuffer MoreSamples.a4_browser (file_named "cv.pdf") =
    arrayBuffer MoreSamples.other_a4_browser (file_named "cv.pdf") /\
  scales_requested (run_calls MoreSamples.a4_browser (file_named "cv.pdf") fresh)
    = [3] /\
  encoded_sizes (run_calls MoreSamples.a4_browser (file_named "cv.pdf") fresh)
    = [{| width := 1785%Z; height := 2525%Z |}] /\
  renders_first_page MoreSamples.a4_browser (file_named "cv.pdf") fresh /\
  renders_first_page MoreSamples.other_a4_browser (file_named "cv.pdf") fresh /\
  encoded_sizes (run_calls MoreSamples.a4_browser (file_named "cv.pdf") fresh) =
    encoded_sizes
      (run_calls MoreSamples.other_a4_browser (file_named "cv.pdf") fresh).
Proof.
  refine (conj eq_refl (conj eq_refl (conj eq_refl (conj eq_refl
           (conj eq_refl (conj eq_refl _)))))).
  exact (first_page_at_scale_three MoreSamples.a4_browser
           MoreSamples.other_a4_browser (file_named "cv.pdf")
           fresh fresh _ _ eq_refl eq_refl eq_refl eq_refl eq_refl eq_refl).
Defined.

End Pdf2ImgFacts.

(* ------------------------------------------------------------------ *)
(** ** Properties of the loader                                         *)
(* ------------------------------------------------------------------ *)

Module LoaderFacts.
Import Js JsM Pdf2Img Props Samples Loader.
Local Open Scope nat_scope.
Local Open Scope list_scope.

Create HintDb loader discriminated.
#[local] Hint Constructors invariant Forall : loader.

Lemma engine_imports_app (a b : list Call) :
  engine_imports (a ++ b) = engine_imports a + engine_imports b.
Proof.
  induction a as [| c a IH]; [reflexivity |].
  destruct c; cbn; rewrite IH; lia.
Qed.

Lemma answer_all_waiting (r : outcome Lib) (ans : list (option (outcome Lib))) :
  Forall (eq None) ans ->
  Forall (eq (Some r)) (map (answer_waiting r) ans).
Proof.
  induction 1 as [| a ans <- _ IH]; cbn; auto with loader.
Qed.

Lemma Forall_snoc {A} (P : A -> Prop) (l : list A) (x : A) :
  Forall P l -> P x -> Forall P (l ++ [x]).
Proof. intros Hl Hx. apply Forall_app. auto. Qed.

#[local] Hint Resolve answer_all_waiting Forall_snoc : loader.

(** Establish. *)
Lemma invariant_initial : invariant initial.
Proof. apply InvIdle. reflexivity. Qed.

(** Preserve. *)
Lemma invariant_step (s s' : Sched) (ev : Event) :
  invariant s -> step s ev = Some s' -> invariant s'.
Proof.
  intros Hinv Hstep.
  destruct Hinv as [cs H0 | stage cs ans H1 Hans | e cs ans H1 Hans
                    | lib cs ans H1 Hans];
    destruct ev as [| o | o]; cbn in Hstep; try discriminate;
    try (injection Hstep as <-).
  - (* first call: the import starts *)
    unfold on_call. cbn. apply InvPending; [| auto with loader].
    rewrite engine_imports_app, H0. reflexivity.
  - (* call while the load is in flight *)
    unfold on_call. cbn. auto with loader.
  - (* the engine import settles *)
    destruct stage; [| discriminate]. injection Hstep as <-.
    destruct o as [lib | e]; unfold on_engine; cbn.
    + apply InvPending; [| assumption].
      rewrite engine_imports_app, H1. reflexivity.
    + auto with loader.
  - (* the worker asset import settles *)
    destruct stage as [| lib]; [discriminate |]. injection Hstep as <-.
    unfold on_worker_url, worker_url_of, install.
    unfold set_pdfjsLib, bind, try_catch, settle, modify, ret.
    destruct o as [md | e]; cbn; auto with loader.
  - (* call after a failed load *)
    unfold on_call. cbn. auto with loader.
  - (* call after the load *)
    unfold on_call. cbn. auto with loader.
Qed.

Lemma invariant_exec (evs : list Event) (s s' : Sched) :
  invariant s -> exec evs s = Some s' -> invariant s'.
Proof.
  revert s.
  induction evs as [| ev evs IH]; intros s Hinv Hexec; cbn in Hexec.
  - now injection Hexec as <-.
  - destruct (step s ev) as [s1 |] eqn:Hstep; [| discriminate].
    eauto using invariant_step.
Qed.




(** Use. *)
Lemma invariant_use (s : Sched) :
  invariant s ->
  engine_imports (calls (store s)) <= 1 /\
  (forall r1 r2,
      In (Some r1) (answers s) -> In (Some r2) (answers s) -> r1 = r2) /\
  (forall lib,
      In (Some (Ok lib)) (answers s) ->
      pdfjsLib (globals (store s)) = Some lib) /\
  (settled (globals (store s)) -> ~ In None (answers s)).
Proof.
  intros Hinv.
  destruct Hinv as [cs H0 | stage cs ans H1 Hans | e cs ans H1 Hans
                    | lib cs ans H1 Hans];
    unfold settled; cbn [store answers calls globals pdfjsLib loadPromise];
    rewrite ?H0, ?H1; try rewrite Forall_forall in Hans;
    (split; [lia |]); unfold not; repeat split; intros;
    repeat match goal with
           | H : In _ [] |- _ => destruct H
           | H : In _ ans |- _ => apply Hans in H
           end;
    solve [congruence | contradiction].
Qed.



(** A call that runs alone, event by event, ends where the run-to-completion
    [loadPdfJs] of the conversion ends. *)
Lemma loadPdfJs_alone (h : Host) (st : St) :
  globals st = initial_globals ->
  exec (alone h) {| store := st; answers := [] |} =
  Some {| store := snd (loadPdfJs h st);
          answers := [Some (outcome_of (fst (loadPdfJs h st)))] |}.
Proof.
  destruct st as [g cs]. cbn. intros ->.
  unfold alone, loadPdfJs, await_load, arrow_from, getWorkerUrl,
    worker_url_of, install, call, log, set_pdfjsLib, set_loadPromise.
  unfold bind, try_catch, settle, modify, get, ret, throw. cbn.
  destruct (import_pdfjs h) as [lib | e]; cbn; [| reflexivity].
  destruct (import_worker_url h) as [md | e]; reflexivity.
Qed.



End LoaderFacts.

(* ------------------------------------------------------------------ *)
(** ** Every run of the conversion                                      *)
(* ------------------------------------------------------------------ *)

Module ConversionFacts.
Import Js JsM JsString JsStringFacts Pdf2Img Props Samples Traces Pdf2ImgFacts.
Local Open Scope jsm_scope.

Lemma logged_nil (st : St) : logged st [] = st.
Proof. destruct st as [g cs]. unfold logged. cbn. now rewrite app_nil_r. Qed.

Lemma logged_logged (st : St) (a b : list Call) :
  logged (logged st a) b = logged st (a ++ b)%list.
Proof. unfold logged. cbn. now rewrite app_assoc. Qed.

(** The loader imports each of the two modules at most once, the engine
    first. *)
Lemma loadPdfJs_imports (h : Host) (st st1 : St) (r : Res Lib) :
  loadPdfJs h st = (r, st1) ->
  exists imports,
    calls st1 = (calls st ++ imports)%list /\ load_imports imports.
Proof.
  unfold loadPdfJs, await_load, arrow_from, getWorkerUrl, worker_url_of,
    install, load_imports. unfold_js.
  destruct (pdfjsLib (globals st)) as [lib |].
  - intros H. injection H as <- <-. exists [].
    split; [now rewrite app_nil_r | now left].
  - destruct (loadPromise (globals st)) as [[[| lib] | lib | e] |];
      destruct (import_pdfjs h); destruct (import_worker_url h);
      cbn; intros H; injection H as <- <-; cbn;
      rewrite <- ?app_assoc;
      solve [ exists []; split; [now rewrite app_nil_r | now left]
            | eexists; split; [reflexivity | cbn; tauto] ].
Qed.

Lemma try_path_throws (h : Host) (f : File) (n : nat) (e : Thrown)
    (data : list Byte.byte) (viewport : Viewport) (blob : Blob)
    (new : list Call) :
  new = firstn n (main_calls f data viewport blob) ->
  (n <= 9)%nat ->
  (n = 9%nat -> createObjectURL h blob = Throws e) ->
  try_path h f (Exn e) new.
Proof. intros ->. apply PathThrows. Qed.

Lemma try_path_value (h : Host) (f : File) (r : PdfConversionResult)
    (new : list Call) (data : list Byte.byte) (viewport : Viewport)
    (blob : Blob) :
  (r = failure "Unable to get 2D canvas context." /\
   new = firstn 6 (main_calls f data viewport blob)) \/
  (r = failure "Failed to create image blob from canvas." /\
   new = firstn 8 (main_calls f data viewport blob)) \/
  (exists url,
      createObjectURL h blob = Ok url /\
      r = {| imageUrl := url;
             file := Some {| name := replace_pdf (name f) "" ++ ".png";
                             type := "image/png";
                             parts := [blob] |};
             error := None |} /\
      new = main_calls f data viewport blob) ->
  try_path h f (Val r) new.
Proof.
  intros [[-> ->] | [[-> ->] | (url & Hurl & -> & ->)]];
    [apply PathNoContext | apply PathNoBlob | now apply PathSuccess].
Qed.

(** Every way through the [try] block is one of the paths. *)
Lemma convert_try_path (h : Host) (f : File) (st st1 : St) (rl : Res Lib) :
  loadPdfJs h st = (rl, st1) ->
  exists res new,
    convert_try h f st = (res, logged st1 new) /\ try_path h f res new.
Proof.
  intros Hload. unfold convert_try, set_height, set_width. unfold_js. rewrite Hload.
  destruct rl as [lib | e]; cbn.
  2: { exists (Exn e), []. split; [now rewrite logged_nil |].
       eapply (try_path_throws h f 0); [reflexivity | lia | discriminate]. }
  repeat next_outcome;
    (eexists; eexists; split;
     [ unfold logged; cbn; rewrite <- ?app_assoc; reflexivity | ]);
    first
      [ eapply try_path_value; cbn;
        first [ left; split; reflexivity
              | right; left; split; reflexivity
              | right; right; eexists; split; [eassumption |];
                split; reflexivity ]
      | eapply (try_path_throws h f 1); [reflexivity | lia | discriminate]
      | eapply (try_path_throws h f 2); [reflexivity | lia | discriminate]
      | eapply (try_path_throws h f 3); [reflexivity | lia | discriminate]
      | eapply (try_path_throws h f 4); [reflexivity | lia | discriminate]
      | eapply (try_path_throws h f 5); [reflexivity | lia | discriminate]
      | eapply (try_path_throws h f 6); [reflexivity | lia | discriminate]
      | eapply (try_path_throws h f 7); [reflexivity | lia | discriminate]
      | eapply (try_path_throws h f 8); [reflexivity | lia | discriminate]
      | eapply (try_path_throws h f 9);
        [reflexivity | lia | intros _; eassumption] ].
  Unshelve.
  all: first [ exact (@nil Byte.byte)
             | exact (Build_Size 0 0 : Viewport)
             | exact {| blob_type := ""; blob_bytes := [] |} ].
Qed.

(** Past the two guards, a run is the loader, one path through the [try]
    block, and the [catch] clause if the path ended in an exception. *)
Lemma convert_run (h : Host) (f : File) (st : St) :
  has_window h = true ->
  test_pdf (name f) = true ->
  exists rl st1 imports res new,
    loadPdfJs h st = (rl, st1) /\
    load_imports imports /\
    try_path h f res new /\
    convertPdfToImage h (Some f) st =
      (Val (caught_result res), logged st1 (new ++ caught_calls res)%list) /\
    run_calls h f st = (imports ++ new ++ caught_calls res)%list.
Proof.
  intros Hw Ht.
  destruct (loadPdfJs h st) as [rl st1] eqn:Hload.
  destruct (loadPdfJs_imports h st st1 rl Hload) as (imports & Hcalls & Himp).
  destruct (convert_try_path h f st st1 rl Hload) as (res & new & Htry & Hpath).
  assert (Hrun : convertPdfToImage h (Some f) st =
            (Val (caught_result res), logged st1 (new ++ caught_calls res)%list)).
  { rewrite (convert_past_guards h f st Hw Ht). unfold try_catch.
    rewrite Htry. destruct res as [r | e]; cbn [caught_result caught_calls].
    - now rewrite app_nil_r.
    - now rewrite convert_catch_run, logged_logged. }
  exists rl, st1, imports, res, new.
  repeat split; try assumption.
  unfold run_calls. rewrite Hrun. cbn. rewrite Hcalls, <- app_assoc.
  apply skipn_length_app.
Qed.

(** A run stopped by a guard makes no call at all. *)
Lemma convert_guarded (h : Host) (f : File) (st : St) :
  has_window h = false \/ test_pdf (name f) = false ->
  run_calls h f st = [] /\
  exists m,
    convertPdfToImage h (Some f) st = (Val (failure m), st) /\
    (m = "PDF conversion is only available in the browser." \/
     m = "Please provide a valid .pdf file.").
Proof.
  intros Hguard.
  assert (Hrun : exists m,
             convertPdfToImage h (Some f) st = (Val (failure m), st) /\
             (m = "PDF conversion is only available in the browser." \/
              m = "Please provide a valid .pdf file.")).
  { unfold convertPdfToImage.
    destruct (has_window h); cbn [negb].
    - destruct Hguard as [Hw | ->]; [discriminate |].
      cbn [negb]. eexists. split; [reflexivity | now right].
    - eexists. split; [reflexivity | now left]. }
  split; [| exact Hrun].
  destruct Hrun as (m & Hrun & _).
  unfold run_calls. rewrite Hrun. cbn. apply skipn_all.
Qed.

Lemma stage_main_calls (f : File) (data : list Byte.byte)
    (viewport : Viewport) (blob : Blob) (n : nat) :
  (n <= 9)%nat ->
  map stage (firstn n (main_calls f data viewport blob)) = seq 1 n.
Proof.
  intros Hn.
  do 10 (destruct n as [| n]; [reflexivity |]). lia.
Qed.

Lemma guards_pass_or_not (h : Host) (f : File) :
  (has_window h = true /\ test_pdf (name f) = true) \/
  (has_window h = false \/ test_pdf (name f) = false).
Proof. destruct (has_window h), (test_pdf (name f)); auto. Qed.

(** X1: in every run the external calls happen in program order, each at
    most once and none skipped: at most two imports, then the first [n] of
    the nine calls of the [try] block, then at most one [console.error]. *)
Theorem calls_in_program_order (h : Host) (f : File) (st : St) :
  exists k n c,
    (k <= 2)%nat /\ (n <= 9)%nat /\ (c <= 1)%nat /\
    map stage (run_calls h f st) =
    (repeat 0%nat k ++ seq 1 n ++ repeat 10%nat c)%list.
Proof.
  destruct (guards_pass_or_not h f) as [[Hw Ht] | Hguard].
  - destruct (convert_run h f st Hw Ht)
      as (rl & st1 & imports & res & new & _ & Himp & Hpath & _ & ->).
    rewrite !map_app.
    assert (Hk : exists k, (k <= 2)%nat /\ map stage imports = repeat 0%nat k).
    { destruct Himp as [-> | [-> | [-> | ->]]];
        [exists 0%nat | exists 1%nat | exists 1%nat | exists 2%nat];
        split; (lia || reflexivity). }
    destruct Hk as (k & Hk & ->).
    assert (Hc : exists c,
               (c <= 1)%nat /\ map stage (caught_calls res) = repeat 10%nat c).
    { destruct res; [exists 0%nat | exists 1%nat];
        split; (lia || reflexivity). }
    destruct Hc as (c & Hc & ->).
    destruct Hpath as [n e data viewport blob Hn _ | data viewport blob
                       | data viewport blob | data viewport blob url _].
    + exists k, n, c. rewrite stage_main_calls by exact Hn. auto.
    + exists k, 6%nat, c. repeat split; (lia || reflexivity).
    + exists k, 8%nat, c. repeat split; (lia || reflexivity).
    + exists k, 9%nat, c. repeat split; (lia || reflexivity).
  - destruct (convert_guarded h f st Hguard) as [-> _].
    exists 0%nat, 0%nat, 0%nat. repeat split; (lia || reflexivity).
Qed.

Lemma Forall_prefix {A} (P : A -> Prop) (l : list A) (n : nat) :
  Forall P l -> Forall P (firstn n l).
Proof.
  intros Hl. revert n.
  induction Hl as [| x l Hx _ IH]; intros [| n]; cbn; constructor; auto.
Qed.

Lemma fixed_main_calls (f : File) (data : list Byte.byte)
    (viewport : Viewport) (blob : Blob) :
  Forall (fixed_arguments f) (main_calls f data viewport blob).
Proof.
  repeat (apply Forall_cons || apply Forall_nil); cbn; auto.
Qed.

(** X2: in every run, whatever the host answers, the file read is the file
    given, the only page asked for is page 1, the only scale is 3, the only
    element created is a [canvas], the only context asked for is [2d],
    rendering is done with smoothing on at quality [high], and the encoder
    is asked for [image/png] at quality 1. *)
Theorem arguments_are_fixed (h : Host) (f : File) (st : St) :
  Forall (fixed_arguments f) (run_calls h f st).
Proof.
  destruct (guards_pass_or_not h f) as [[Hw Ht] | Hguard].
  - destruct (convert_run h f st Hw Ht)
      as (rl & st1 & imports & res & new & _ & Himp & Hpath & _ & ->).
    rewrite !Forall_app. repeat split.
    + destruct Himp as [-> | [-> | [-> | ->]]];
        repeat (apply Forall_cons || apply Forall_nil); cbn; auto.
    + destruct Hpath; try apply Forall_prefix; apply fixed_main_calls.
    + destruct res; repeat (apply Forall_cons || apply Forall_nil);
        reflexivity.
  - destruct (convert_guarded h f st Hguard) as [-> _]. constructor.
Qed.

Lemma no_url_before_the_end (f : File) (data : list Byte.byte)
    (viewport : Viewport) (blob b : Blob) (n : nat) :
  In (CCreateObjectURL b) (firstn n (main_calls f data viewport blob)) ->
  (9 <= n)%nat /\ b = blob.
Proof.
  do 9 (destruct n as [| n];
        [cbn; intros H; repeat (destruct H as [H | H]; try discriminate H);
         destruct H |]).
  cbn. rewrite firstn_nil. intros H.
  repeat (destruct H as [H | H]; try discriminate H); [| destruct H].
  injection H as <-. split; [lia | reflexivity].
Qed.

Lemma no_url_in_imports (imports : list Call) (b : Blob) :
  load_imports imports -> ~ In (CCreateObjectURL b) imports.
Proof.
  intros [-> | [-> | [-> | ->]]] H; cbn in H;
    repeat (destruct H as [H | H]; try discriminate H); destruct H.
Qed.

(** X3: an object URL is created only as the very last step of a successful
    run: whenever a run has created one, the result returned is the success
    object carrying exactly that URL and that blob.  No failing result
    leaves a created URL behind. *)
Theorem object_url_reaches_caller (h : Host) (f : File) (st : St) (b : Blob)
    (url : string) :
  In (CCreateObjectURL b) (run_calls h f st) ->
  createObjectURL h b = Ok url ->
  fst (convertPdfToImage h (Some f) st) =
  Val {| imageUrl := url;
         file := Some {| name := replace_pdf (name f) "" ++ ".png";
                         type := "image/png";
                         parts := [b] |};
         error := None |}.
Proof.
  intros Hin Hurl.
  destruct (guards_pass_or_not h f) as [[Hw Ht] | Hguard].
  2: { destruct (convert_guarded h f st Hguard) as [Hnone _].
       rewrite Hnone in Hin. destruct Hin. }
  destruct (convert_run h f st Hw Ht)
    as (rl & st1 & imports & res & new & _ & Himp & Hpath & Hrun & Hcalls).
  rewrite Hcalls in Hin. rewrite Hrun. cbn [fst].
  apply in_app_or in Hin as [Hin | Hin];
    [now apply no_url_in_imports in Hin |].
  apply in_app_or in Hin as [Hin | Hin].
  - destruct Hpath as [n e data viewport blob Hn H9 | data viewport blob
                       | data viewport blob | data viewport blob url' Hurl'].
    + apply no_url_before_the_end in Hin as [Hn9 ->].
      assert (n = 9%nat) as Hn' by lia.
      rewrite (H9 Hn') in Hurl. discriminate.
    + apply no_url_before_the_end in Hin as [Hn9 _]. lia.
    + apply no_url_before_the_end in Hin as [Hn9 _]. lia.
    + apply (no_url_before_the_end f data viewport blob b 9) in Hin
        as [_ ->].
      rewrite Hurl' in Hurl. injection Hurl as ->. reflexivity.
  - destruct res; cbn in Hin; [destruct Hin |].
    destruct Hin as [Hin | []]. discriminate.
Qed.

Lemma object_url_reaches_caller_witness :
  In (CCreateObjectURL png_blob)
     (run_calls browser (file_named "cv.pdf") fresh) /\
  createObjectURL browser png_blob = Ok "blob:http://localhost/0001" /\
  fst (convertPdfToImage browser (Some (file_named "cv.pdf")) fresh) =
  Val {| imageUrl := "blob:http://localhost/0001";
         file := Some {| name := replace_pdf (name (file_named "cv.pdf")) ""
                                 ++ ".png";
                         type := "image/png";
                         parts := [png_blob] |};
         error := None |}.
Proof.
  assert (Hin : In (CCreateObjectURL png_blob)
                   (run_calls browser (file_named "cv.pdf") fresh))
    by (vm_compute; repeat (first [left; reflexivity | right])).
  refine (conj Hin (conj eq_refl _)).
  exact (object_url_reaches_caller browser (file_named "cv.pdf") fresh
           png_blob "blob:http://localhost/0001" Hin eq_refl).
Defined.

Lemma console_errors_main (f : File) (data : list Byte.byte)
    (viewport : Viewport) (blob : Blob) (n : nat) :
  console_errors (firstn n (main_calls f data viewport blob)) = 0%nat.
Proof. do 10 (destruct n as [| n]; [reflexivity |]). reflexivity. Qed.

Lemma console_errors_imports (imports : list Call) :
  load_imports imports -> console_errors imports = 0%nat.
Proof. intros [-> | [-> | [-> | ->]]]; reflexivity. Qed.

Lemma prefix_of_caught (text : string) :
  String.prefix "Failed to convert PDF: " ("Failed to convert PDF: " ++ text)
  = true.
Proof. cbn. now destruct text. Qed.

(** X4: the catch clause runs exactly when the returned error starts with
    [Failed to convert PDF: ].  A result whose error has that prefix comes
    with one [console.error]; every other result, the success and the four
    guard results, comes with none. *)
Theorem caught_iff_prefixed (h : Host) (f : File) (st st' : St)
    (r : PdfConversionResult) :
  convertPdfToImage h (Some f) st = (Val r, st') ->
  console_errors (run_calls h f st) =
  match error r with
  | Some m => if String.prefix "Failed to convert PDF: " m then 1%nat
              else 0%nat
  | None => 0%nat
  end.
Proof.
  intros Hres.
  destruct (guards_pass_or_not h f) as [[Hw Ht] | Hguard].
  - destruct (convert_run h f st Hw Ht)
      as (rl & st1 & imports & res & new & _ & Himp & Hpath & Hrun & ->).
    rewrite Hrun in Hres. injection Hres as <- _.
    rewrite !console_errors_app, (console_errors_imports imports Himp).
    destruct Hpath; cbn [caught_result caught_calls error failure];
      rewrite ?console_errors_main, ?prefix_of_caught; reflexivity.
  - destruct (convert_guarded h f st Hguard) as (-> & m & Hrun & Hm).
    rewrite Hrun in Hres. injection Hres as <- _.
    destruct Hm as [-> | ->]; reflexivity.
Qed.

Lemma caught_iff_prefixed_witness :
  convertPdfToImage (browser_failing_import (ThrownString "offline"))
    (Some (file_named "cv.pdf")) fresh =
    (Val (failure "Failed to convert PDF: offline"),
     logged (MoreSamples.failed_load (ThrownString "offline"))
       [CConsoleError "convertPdfToImage error:" (ThrownString "offline")]) /\
  console_errors
    (run_calls (browser_failing_import (ThrownString "offline"))
       (file_named "cv.pdf") fresh) = 1%nat.
Proof.
  refine (conj eq_refl _).
  exact (caught_iff_prefixed (browser_failing_import (ThrownString "offline"))
           (file_named "cv.pdf") fresh _ _ eq_refl).
Defined.

(** X5: when the encoder yields no blob, the [try] block itself returns the
    result with the error [Failed to create image blob from canvas.], an
    empty [imageUrl] and a null [file]: the catch clause does not run, no
    file is built and no object URL is created. *)
Theorem no_blob_guard (h : Host) (f : File) (st st1 : St) (lib : Lib)
    (data : list Byte.byte) (pdf : Doc (engine lib))
    (page : Page (engine lib)) (viewport : Viewport) (canvas : Canvas)
    (context : Context2D) :
  has_window h = true ->
  test_pdf (name f) = true ->
  loadPdfJs h st = (Val lib, st1) ->
  arrayBuffer h f = Ok data ->
  getDocument (engine lib) data = Ok pdf ->
  getPage (engine lib) pdf 1 = Ok page ->
  getViewport (engine lib) page 3 = Ok viewport ->
  createElement h "canvas" = Ok canvas ->
  getContext h canvas "2d" = Ok (Some context) ->
  render (engine lib) page
    {| imageSmoothingEnabled := true; imageSmoothingQuality := "high" |}
    viewport = Ok tt ->
  toBlob h (canvas_for viewport)
    "image/png" 1 = Ok None ->
  convertPdfToImage h (Some f) st =
    (Val {| imageUrl := "";
            file := None;
            error := Some "Failed to create image blob from canvas." |},
     logged st1 (firstn 8 (main_calls f data viewport (Build_Blob "" [])))) /\
  convert_try h f st = convertPdfToImage h (Some f) st.
Proof.
  intros Hw Ht Hload Hread Hdoc Hpage Hview Hcanvas Hctx Hrender Hblob.
  assert (Htry : convert_try h f st =
            (Val (failure "Failed to create image blob from canvas."),
             logged st1
               (firstn 8 (main_calls f data viewport (Build_Blob "" []))))).
  { unfold canvas_for in *. unfold convert_try, set_height, set_width. unfold_js.
    rewrite Hload. cbn. rewrite Hread, Hdoc. cbn. rewrite Hpage, Hview. cbn.
    rewrite Hcanvas, Hctx. cbn. rewrite Hrender, Hblob.
    unfold logged. cbn. now rewrite <- !app_assoc. }
  rewrite (convert_past_guards h f st Hw Ht). unfold try_catch.
  rewrite Htry. split; reflexivity.
Qed.

Lemma no_blob_guard_witness :
  has_window MoreSamples.browser_without_encoder = true /\
  toBlob MoreSamples.browser_without_encoder
    (canvas_for letter_at_3)
    "image/png" 1 = Ok None /\
  convertPdfToImage MoreSamples.browser_without_encoder
    (Some (file_named "cv.pdf")) fresh =
    (Val {| imageUrl := "";
            file := None;
            error := Some "Failed to create image blob from canvas." |},
     logged loaded
       (firstn 8 (main_calls (file_named "cv.pdf") [Byte.x25; Byte.x50]
                    letter_at_3 (Build_Blob "" [])))).
Proof.
  refine (conj eq_refl (conj eq_refl _)).
  exact (proj1 (no_blob_guard MoreSamples.browser_without_encoder
           (file_named "cv.pdf") fresh loaded loaded_lib
           [Byte.x25; Byte.x50] 1%nat {| width := 612; height := 792 |}
           letter_at_3 {| width := 300%Z; height := 150%Z |}
           {| imageSmoothingEnabled := true; imageSmoothingQuality := "low" |}
           eq_refl eq_refl eq_refl eq_refl eq_refl eq_refl eq_refl eq_refl
           eq_refl eq_refl eq_refl)).
Defined.

(** X6: a first load.  With both globals null, [loadPdfJs] succeeds exactly
    when the engine import does; a failing worker asset import only changes
    the worker URL to the fallback path.  On success the handle returned
    carries the worker URL and is the one stored in [pdfjsLib] and in the
    fulfilled [loadPromise]; on failure [pdfjsLib] stays null,
    [loadPromise] is left rejected and the worker asset is not imported. *)
Theorem first_load (h : Host) (st : St) :
  pdfjsLib (globals st) = None ->
  loadPromise (globals st) = None ->
  loadPdfJs h st =
  match import_pdfjs h with
  | Ok lib =>
      let lib' :=
        {| engine := engine lib;
           workerSrc :=
             Some match import_worker_url h with
                  | Ok md => or_else (mod_and_default md) "/pdf.worker.min.mjs"
                  | Throws _ => "/pdf.worker.min.mjs"
                  end |} in
      (Val lib',
       {| globals := {| pdfjsLib := Some lib';
                        loadPromise := Some (Fulfilled lib') |};
          calls := calls st ++ [CImport "pdfjs-dist/legacy/build/pdf.mjs";
                                CImport "pdfjs-dist/build/pdf.worker.min.mjs?url"] |})
  | Throws e =>
      (Exn e,
       {| globals := {| pdfjsLib := None; loadPromise := Some (Rejected e) |};
          calls := calls st ++ [CImport "pdfjs-dist/legacy/build/pdf.mjs"] |})
  end.
Proof.
  destruct st as [[lib0 promise0] cs0]. cbn. intros -> ->.
  unfold loadPdfJs, await_load, arrow_from, getWorkerUrl, install.
  unfold_js. cbn.
  destruct (import_pdfjs h) as [lib | e]; cbn; [| reflexivity].
  destruct (import_worker_url h) as [md | e]; cbn;
    now rewrite <- app_assoc.
Qed.

Lemma first_load_witness :
  pdfjsLib (globals fresh) = None /\
  loadPromise (globals fresh) = None /\
  loadPdfJs other_browser fresh = (Val fallback_lib, loaded_with_fallback).
Proof.
  refine (conj eq_refl (conj eq_refl _)).
  exact (first_load other_browser fresh eq_refl eq_refl).
Defined.

(** X7: [loadPdfJs] is idempotent.  Once a call has completed, with a
    handle or with an exception, every further call, in whatever
    environment, completes the same way and leaves the store as it is: no
    second import, and no retry after a failure. *)
Theorem load_again (h h' : Host) (st st1 : St) (r : Res Lib) :
  loadPdfJs h st = (r, st1) ->
  loadPdfJs h' st1 = (r, st1).
Proof.
  unfold loadPdfJs, await_load, arrow_from, getWorkerUrl, worker_url_of,
    install. unfold_js.
  destruct st as [[lib0 promise0] cs0]. cbn.
  destruct lib0 as [lib |].
  - intros H. injection H as <- <-. reflexivity.
  - destruct promise0 as [[[| lib] | lib | e] |];
      destruct (import_pdfjs h); destruct (import_worker_url h);
      cbn; intros H; injection H as <- <-; reflexivity.
Qed.

Lemma load_again_witness :
  loadPdfJs (browser_failing_import (ThrownString "offline")) fresh =
    (Exn (ThrownString "offline"),
     MoreSamples.failed_load (ThrownString "offline")) /\
  loadPdfJs browser (MoreSamples.failed_load (ThrownString "offline")) =
    (Exn (ThrownString "offline"),
     MoreSamples.failed_load (ThrownString "offline")).
Proof.
  refine (conj eq_refl _).
  exact (load_again (browser_failing_import (ThrownString "offline")) browser
           fresh _ _ eq_refl).
Defined.

(** A load that throws leaves [loadPromise] rejected with what it threw. *)
Lemma load_fails_rejected (h : Host) (st st1 : St) (e : Thrown) :
  loadPdfJs h st = (Exn e, st1) ->
  pdfjsLib (globals st1) = None /\
  loadPromise (globals st1) = Some (Rejected e).
Proof.
  unfold loadPdfJs, await_load, arrow_from, getWorkerUrl, worker_url_of,
    install. unfold_js.
  destruct st as [[lib0 promise0] cs0]. cbn.
  destruct lib0 as [lib |]; [discriminate |].
  destruct promise0 as [[[| lib] | lib | e0] |];
    destruct (import_pdfjs h); destruct (import_worker_url h);
    cbn; intros H; try discriminate H; injection H as <- <-; now split.
Qed.

Lemma rejected_load_throws (h : Host) (st : St) (e : Thrown) :
  pdfjsLib (globals st) = None ->
  loadPromise (globals st) = Some (Rejected e) ->
  loadPdfJs h st = (Exn e, st).
Proof.
  intros Hlib Hpromise. unfold loadPdfJs, await_load. unfold_js.
  now rewrite Hlib, Hpromise.
Qed.

(** X8: a failed engine load is final for the process.  After a load has
    thrown [e], every later conversion of a valid file in a browser, even
    one in which the import would now succeed, returns
    [Failed to convert PDF: ] followed by the text of [e], and makes no
    external call but the [console.error]: the import is not tried
    again. *)
Theorem failed_load_is_final (h h' : Host) (f : File) (st st1 : St)
    (e : Thrown) :
  loadPdfJs h st = (Exn e, st1) ->
  has_window h' = true ->
  test_pdf (name f) = true ->
  convertPdfToImage h' (Some f) st1 =
    (Val {| imageUrl := "";
            file := None;
            error := Some ("Failed to convert PDF: " ++ message_or_string e) |},
     logged st1 [CConsoleError "convertPdfToImage error:" e]) /\
  run_calls h' f st1 = [CConsoleError "convertPdfToImage error:" e].
Proof.
  intros Hload Hw Ht.
  destruct (load_fails_rejected h st st1 e Hload) as [Hlib Hpromise].
  pose proof (rejected_load_throws h' st1 e Hlib Hpromise) as Hagain.
  assert (Hrun : convertPdfToImage h' (Some f) st1 =
            (Val (failure ("Failed to convert PDF: " ++ message_or_string e)),
             logged st1 [CConsoleError "convertPdfToImage error:" e])).
  { rewrite (convert_past_guards h' f st1 Hw Ht). unfold try_catch.
    rewrite (convert_try_load_fails h' f st1 st1 e Hagain).
    apply convert_catch_run. }
  split; [exact Hrun |].
  unfold run_calls. rewrite Hrun. cbn. apply skipn_length_app.
Qed.

Lemma failed_load_is_final_witness :
  loadPdfJs (browser_failing_import (ThrownString "offline")) fresh =
    (Exn (ThrownString "offline"),
     MoreSamples.failed_load (ThrownString "offline")) /\
  has_window browser = true /\
  test_pdf (name (file_named "cv.pdf")) = true /\
  import_pdfjs browser = Ok toy_lib /\
  run_calls browser (file_named "cv.pdf")
    (MoreSamples.failed_load (ThrownString "offline")) =
    [CConsoleError "convertPdfToImage error:" (ThrownString "offline")].
Proof.
  refine (conj eq_refl (conj eq_refl (conj eq_refl (conj eq_refl _)))).
  exact (proj2 (failed_load_is_final
           (browser_failing_import (ThrownString "offline")) browser
           (file_named "cv.pdf") fresh _ (ThrownString "offline")
           eq_refl eq_refl eq_refl)).
Defined.

Lemma loaded_load_returns (h : Host) (st : St) (lib : Lib) :
  pdfjsLib (globals st) = Some lib -> loadPdfJs h st = (Val lib, st).
Proof.
  intros Hlib. unfold loadPdfJs. unfold_js. now rewrite Hlib.
Qed.

Lemma no_import_in_main (f : File) (data : list Byte.byte)
    (viewport : Viewport) (blob : Blob) (n : nat) :
  Forall (fun c => stage c <> 0%nat)
         (firstn n (main_calls f data viewport blob)).
Proof.
  apply Forall_prefix.
  repeat (apply Forall_cons || apply Forall_nil); discriminate.
Qed.

(** X9: the conversion touches the module's globals through the loader
    only: after a run they are what [loadPdfJs] alone would have left.  In
    particular, once [pdfjsLib] holds the engine, a conversion leaves both
    globals as they are and imports nothing. *)
Theorem engine_state_only_by_loader (h : Host) (f : File) (st : St) :
  has_window h = true ->
  test_pdf (name f) = true ->
  globals (snd (convertPdfToImage h (Some f) st)) =
    globals (snd (loadPdfJs h st)) /\
  (forall lib,
      pdfjsLib (globals st) = Some lib ->
      globals (snd (convertPdfToImage h (Some f) st)) = globals st /\
      Forall (fun c => stage c <> 0%nat) (run_calls h f st)).
Proof.
  intros Hw Ht.
  destruct (convert_run h f st Hw Ht)
    as (rl & st1 & imports & res & new & Hload & Himp & Hpath & Hrun & Hcalls).
  split; [now rewrite Hrun, Hload |].
  intros lib Hlib.
  rewrite (loaded_load_returns h st lib Hlib) in Hload.
  injection Hload as <- <-.
  split; [now rewrite Hrun |].
  unfold run_calls. rewrite Hrun. cbn. rewrite skipn_length_app.
  apply Forall_app. split.
  - destruct Hpath; apply no_import_in_main
      || apply (no_import_in_main f data viewport blob 9).
  - destruct res; repeat constructor; discriminate.
Qed.

Lemma engine_state_only_by_loader_witness :
  has_window other_browser = true /\
  test_pdf (name (file_named "cv.pdf")) = true /\
  pdfjsLib (globals loaded) = Some loaded_lib /\
  globals (snd (convertPdfToImage other_browser
                  (Some (file_named "cv.pdf")) loaded)) = globals loaded.
Proof.
  refine (conj eq_refl (conj eq_refl (conj eq_refl _))).
  exact (proj1 (proj2 (engine_state_only_by_loader other_browser
           (file_named "cv.pdf") loaded eq_refl eq_refl) loaded_lib eq_refl)).
Defined.

Lemma length_lowercase (s : string) :
  String.length (lowercase s) = String.length s.
Proof. induction s as [| c s IH]; cbn; [reflexivity | now rewrite IH]. Qed.

Lemma append_same_length (a c b d : string) :
  String.length b = String.length d ->
  a ++ b = c ++ d -> b = d.
Proof.
  intros Hlen. revert c.
  induction a as [| x a IH]; intros [| y c] H; cbn in H.
  - exact H.
  - apply (f_equal String.length) in H. cbn in H.
    rewrite length_append in H. lia.
  - apply (f_equal String.length) in H. cbn in H.
    rewrite length_append in H. lia.
  - injection H as _ H. now apply (IH c).
Qed.

(** A name that ends in [.png] is refused by the validation. *)
Lemma png_name_refused (stem : string) : test_pdf (stem ++ ".png") = false.
Proof.
  apply suffix_free_test. intros stem' ext' Hsplit Hext.
  assert (Hlen : String.length ".png" = String.length ext')
    by (rewrite <- (length_lowercase ext'), Hext; reflexivity).
  rewrite <- (append_same_length stem stem' ".png" ext' Hlen Hsplit) in Hext.
  discriminate.
Qed.

(** X10: the file a conversion produces has a name as long as the name it
    was given, and is not accepted as an input: converting it, in any
    browser and any state, is refused with the validation error before
    anything is called. *)
Theorem output_is_not_an_input (h h' : Host) (f img : File) (st st' : St)
    (r : PdfConversionResult) :
  fst (convertPdfToImage h (Some f) st) = Val r ->
  file r = Some img ->
  has_window h' = true ->
  String.length (name img) = String.length (name f) /\
  convertPdfToImage h' (Some img) st' =
    (Val {| imageUrl := "";
            file := None;
            error := Some "Please provide a valid .pdf file." |},
     st').
Proof.
  intros Hres Hfile Hw'.
  destruct (guards_pass_or_not h f) as [[Hw Ht] | Hguard].
  2: { destruct (convert_guarded h f st Hguard) as (_ & m & Hrun & _).
       rewrite Hrun in Hres. injection Hres as <-. discriminate. }
  destruct (convert_run h f st Hw Ht)
    as (rl & st1 & imports & res & new & _ & _ & Hpath & Hrun & _).
  rewrite Hrun in Hres. injection Hres as <-.
  destruct Hpath; cbn in Hfile; try discriminate.
  injection Hfile as <-. cbn [name].
  apply test_pdf_iff in Ht as (stem & ext & Hname & Hext).
  rewrite Hname, (replace_pdf_suffix stem ext "" Hext), append_empty_r.
  split.
  - rewrite !length_append, <- (length_lowercase ext), Hext. reflexivity.
  - unfold convertPdfToImage. rewrite Hw'. cbn [negb name].
    now rewrite png_name_refused.
Qed.

Lemma output_is_not_an_input_witness :
  fst (convertPdfToImage browser (Some (file_named "cv.pdf")) fresh) =
    Val {| imageUrl := "blob:http://localhost/0001";
           file := Some {| name := "cv.png"; type := "image/png";
                           parts := [png_blob] |};
           error := None |} /\
  has_window other_browser = true /\
  convertPdfToImage other_browser
    (Some {| name := "cv.png"; type := "image/png"; parts := [png_blob] |})
    loaded =
    (Val {| imageUrl := "";
            file := None;
            error := Some "Please provide a valid .pdf file." |},
     loaded).
Proof.
  refine (conj eq_refl (conj eq_refl _)).
  exact (proj2 (output_is_not_an_input browser other_browser
           (file_named "cv.pdf") _ fresh loaded _ eq_refl eq_refl eq_refl)).
Defined.

End ConversionFacts.

(* ------------------------------------------------------------------ *)
(** ** Callers waiting on the loader                                    *)
(* ------------------------------------------------------------------ *)

Module SchedulingFacts.
Import Js JsM Pdf2Img Props Samples Loader Scheduling LoaderFacts.
Local Open Scope nat_scope.
Local Open Scope list_scope.

Lemma all_answered (r : outcome Lib) (ans : list (option (outcome Lib))) :
  Forall (eq (Some r)) ans ->
  ~ In None ans /\
  forall e, In (Some (Throws e)) ans -> r = Throws e.
Proof.
  rewrite Forall_forall. intros Hans. split.
  - intros Hn. apply Hans in Hn. discriminate.
  - intros e He. apply Hans in He. now injection He.
Qed.

(** X11: no caller is left hanging.  From any state the process can reach,
    once the imports still pending settle, however they settle, every call
    made so far has its answer; and a call is answered with an exception
    only if the engine import failed: a failing worker asset import never
    fails the load. *)
Theorem pending_calls_get_answered (evs : list Event) (s : Sched)
    (o1 : outcome Lib) (o2 : outcome WorkerMod) :
  exec evs initial = Some s ->
  exists s',
    exec (drain s o1 o2) s = Some s' /\
    ~ In None (answers s') /\
    List.length (answers s') = List.length (answers s) /\
    (forall e,
        In (Some (Throws e)) (answers s') ->
        o1 = Throws e \/ loadPromise (globals (store s)) = Some (Rejected e)).
Proof.
  intros Hs.
  pose proof (invariant_exec evs initial s invariant_initial Hs) as Hinv.
  destruct Hinv as [cs H0 | stage cs ans H1 Hans | e0 cs ans H1 Hans
                    | lib cs ans H1 Hans].
  - eexists. split; [reflexivity |]. cbn. repeat split; tauto.
  - destruct stage as [| lib].
    + destruct o1 as [lib | e1].
      * unfold drain. cbn.
        unfold on_worker_url, worker_url_of, install.
        unfold set_pdfjsLib, bind, try_catch, settle, modify, ret.
        destruct o2 as [md | e2]; cbn;
          (eexists; split; [reflexivity |]); cbn;
          match goal with
          | |- context [map (answer_waiting ?r) ans] =>
              destruct (all_answered r _ (answer_all_waiting r ans Hans))
                as [Hnone Hthrows]
          end;
          (repeat split; [exact Hnone | apply length_map |]);
          intros e He; apply Hthrows in He; discriminate.
      * unfold drain. cbn. eexists. split; [reflexivity |]. cbn.
        destruct (all_answered _ _ (answer_all_waiting (Throws e1) ans Hans))
          as [Hnone Hthrows].
        repeat split; [exact Hnone | apply length_map |].
        intros e He. apply Hthrows in He. left. congruence.
    + unfold drain. cbn.
      unfold on_worker_url, worker_url_of, install.
      unfold set_pdfjsLib, bind, try_catch, settle, modify, ret.
      destruct o2 as [md | e2]; cbn;
        (eexists; split; [reflexivity |]); cbn;
        match goal with
        | |- context [map (answer_waiting ?r) ans] =>
            destruct (all_answered r _ (answer_all_waiting r ans Hans))
              as [Hnone Hthrows]
        end;
        (repeat split; [exact Hnone | apply length_map |]);
        intros e He; apply Hthrows in He; discriminate.
  - eexists. split; [reflexivity |]. cbn.
    destruct (all_answered _ _ Hans) as [Hnone Hthrows].
    repeat split; [exact Hnone |].
    intros e He. apply Hthrows in He. right. congruence.
  - eexists. split; [reflexivity |]. cbn.
    destruct (all_answered _ _ Hans) as [Hnone Hthrows].
    repeat split; [exact Hnone |].
    intros e He. apply Hthrows in He. discriminate.
Qed.

Lemma pending_calls_get_answered_witness :
  exec [EvCall; EvCall] initial =
    Some {| store :=
              {| globals := {| pdfjsLib := None;
                               loadPromise := Some (Pending AwaitEngine) |};
                 calls := [CImport engine_specifier] |};
            answers := [None; None] |} /\
  exists s',
    exec (drain
            {| store :=
                 {| globals := {| pdfjsLib := None;
                                  loadPromise := Some (Pending AwaitEngine) |};
                    calls := [CImport engine_specifier] |};
               answers := [None; None] |}
            (Ok toy_lib) (Throws ThrownNull))
         {| store :=
              {| globals := {| pdfjsLib := None;
                               loadPromise := Some (Pending AwaitEngine) |};
                 calls := [CImport engine_specifier] |};
            answers := [None; None] |} = Some s' /\
    ~ In None (answers s') /\
    List.length (answers s') = 2.
Proof.
  refine (conj eq_refl _).
  destruct (pending_calls_get_answered [EvCall; EvCall] _
              (Ok toy_lib) (Throws ThrownNull) eq_refl)
    as (s' & Hexec & Hnone & Hlen & _).
  exists s'. repeat split; assumption.
Defined.

Lemma or_else_nonempty (a : option string) (d : string) :
  d <> "" -> or_else a d <> "".
Proof.
  intros Hd. destruct a as [x |]; cbn; [| exact Hd].
  destruct (String.eqb_spec x ""); assumption.
Qed.

(** Whatever is stored in [pdfjsLib] is configured. *)
Lemma stored_handle_configured_step (s s' : Sched) (ev : Event) :
  (forall lib, pdfjsLib (globals (store s)) = Some lib -> configured lib) ->
  step s ev = Some s' ->
  forall lib, pdfjsLib (globals (store s')) = Some lib -> configured lib.
Proof.
  intros Hs Hstep.
  destruct ev as [| o | o]; cbn in Hstep.
  - injection Hstep as <-. unfold on_call.
    destruct (pdfjsLib (globals (store s))) as [lib0 |] eqn:Hlib;
      [| destruct (loadPromise (globals (store s))) as [[| |] |]];
      cbn; rewrite ?Hlib; try exact Hs; discriminate.
  - destruct (loadPromise (globals (store s))) as [[[|] | |] |];
      try discriminate.
    injection Hstep as <-. destruct o; cbn; exact Hs.
  - destruct (loadPromise (globals (store s))) as [[[| lib0] | |] |];
      try discriminate.
    injection Hstep as <-.
    unfold on_worker_url, worker_url_of, install.
    unfold set_pdfjsLib, bind, try_catch, settle, modify, ret.
    destruct o as [md | e]; cbn; intros lib Hlib; injection Hlib as <-;
      eexists; (split; [reflexivity |]);
      [apply or_else_nonempty |]; discriminate.
Qed.

Lemma stored_handle_configured (evs : list Event) (s s' : Sched) :
  (forall lib, pdfjsLib (globals (store s)) = Some lib -> configured lib) ->
  exec evs s = Some s' ->
  forall lib, pdfjsLib (globals (store s')) = Some lib -> configured lib.
Proof.
  revert s.
  induction evs as [| ev evs IH]; intros s Hs Hexec; cbn in Hexec.
  - now injection Hexec as <-.
  - destruct (step s ev) as [s1 |] eqn:Hstep; [| discriminate].
    eauto using stored_handle_configured_step.
Qed.

(** X12: no caller ever receives an engine without its worker.  Along every
    interleaving, a handle given as an answer, and the handle held in
    [pdfjsLib], has its worker URL set to a non-empty string. *)
Theorem handles_are_configured (evs : list Event) (s : Sched) (lib : Lib) :
  exec evs initial = Some s ->
  In (Some (Ok lib)) (answers s) \/ pdfjsLib (globals (store s)) = Some lib ->
  configured lib.
Proof.
  intros Hs Hlib.
  assert (Hstored : pdfjsLib (globals (store s)) = Some lib).
  { destruct Hlib as [Hin | Hstored]; [| exact Hstored].
    pose proof (invariant_exec evs initial s invariant_initial Hs) as Hinv.
    now apply (invariant_use s Hinv). }
  apply (stored_handle_configured evs initial s); try assumption.
  intros lib0 H0. discriminate H0.
Qed.

Lemma handles_are_configured_witness :
  exec [EvCall; EvEngineSettles (Ok toy_lib);
        EvWorkerUrlSettles (Ok (ModObject (Some "")))] initial =
    Some {| store := loaded_with_fallback;
            answers := [Some (Ok fallback_lib)] |} /\
  In (Some (Ok fallback_lib)) [Some (Ok fallback_lib)] /\
  configured fallback_lib.
Proof.
  refine (conj eq_refl (conj (or_introl eq_refl) _)).
  exact (handles_are_configured
           [EvCall; EvEngineSettles (Ok toy_lib);
            EvWorkerUrlSettles (Ok (ModObject (Some "")))]
           _ fallback_lib eq_refl (or_introl (or_introl eq_refl))).
Defined.

End SchedulingFacts.
